(** * Rafeeq health monitor: the alert decision engine of [main.py]

  A shallow embedding of the scorer ([EmotionAnalyzer.analyze]), the
  spreadsheet ledger ([VitalSignsMonitor]), the dispatcher
  ([trigger_emergency_call]), one iteration of the sensor loop
  ([simulate_sensor_readings]) and the two user actions of the window
  ([trigger_alert], [reset_counter]).

  Heart rate and SpO2 are Python ints ([Z]); the temperature and the
  clock ([time.time()]) are Python floats, that is IEEE 754 binary64
  numbers ([float]).  Strings stay strings. *)

From Stdlib Require Import ZArith List Bool Lia.
From Stdlib Require Import Floats.PrimFloat Floats.FloatAxioms Floats.SpecFloat.
From stdpp Require Import base option list gmap strings.
Import ListNotations.

Open Scope string_scope.
Open Scope list_scope.
Open Scope Z_scope.

(** ** Thresholds and configuration *)

Definition HEART_RATE_CRITICAL : Z := 140.
Definition HEART_RATE_WARNING : Z := 120.
Definition SPO2_CRITICAL : Z := 90.
Definition SPO2_WARNING : Z := 93.
Definition TEMP_CRITICAL_HIGH : float := 38.5%float.
Definition TEMP_CRITICAL_LOW : float := 35.5%float.
Definition AUTO_CALL_COOLDOWN : float := 30%float.

(** Python's [a > b] and [a >= b] on floats ([False] when either is NaN). *)
Definition fgt (a b : float) : bool := PrimFloat.ltb b a.
Definition fge (a b : float) : bool := PrimFloat.leb b a.
Definition flt (a b : float) : bool := PrimFloat.ltb a b.

(** ** The scorer *)

Module EmotionAnalyzer.

(** The dict returned by [analyze]. *)
Record Assessment := mkAssessment {
  emotion : string;
  score : Z;
  color : string;
  factors : list string
}.

(** The first four [if] blocks: each one reads the running [score] and
    [factors] and extends them. *)
Definition heart_rate_analysis (heart_rate : Z) (acc : Z * list string)
  : Z * list string :=
  let '(score, factors) := acc in
  if heart_rate >? 130 then (score + 30, factors ++ ["elevated_hr"])
  else if heart_rate >? 110 then (score + 15, factors ++ ["raised_hr"])
  else (score, factors).

Definition spo2_analysis (spo2 : Z) (acc : Z * list string)
  : Z * list string :=
  let '(score, factors) := acc in
  if spo2 <? 92 then (score + 25, factors ++ ["low_oxygen"])
  else if spo2 <? 95 then (score + 10, factors ++ ["reduced_oxygen"])
  else (score, factors).

Definition temperature_analysis (temp : float) (acc : Z * list string)
  : Z * list string :=
  let '(score, factors) := acc in
  if fgt temp 38%float || flt temp 36%float
  then (score + 15, factors ++ ["temp_abnormal"])
  else (score, factors).

Definition critical_events (fall_detected help_pressed : bool)
    (acc : Z * list string) : Z * list string :=
  let '(score, factors) := acc in
  let '(score, factors) :=
    if fall_detected then (score + 40, factors ++ ["fall_trauma"])
    else (score, factors) in
  if help_pressed then (score + 35, factors ++ ["distress_signal"])
  else (score, factors).

(** The classification chain: the pair is (emotion, color). *)
Definition emotion_classification (score : Z) : string * string :=
  if score >=? 60 then ("CRITICAL DISTRESS", "#D50000")
  else if score >=? 40 then ("HIGH ANXIETY", "#FF6D00")
  else if score >=? 25 then ("MODERATE STRESS", "#FFA000")
  else if score >=? 10 then ("MILD DISCOMFORT", "#FBC02D")
  else ("STABLE", "#00C853").

Definition analyze (heart_rate spo2 : Z) (temp : float)
    (fall_detected help_pressed : bool) : Assessment :=
  let acc := (0, []) in
  let acc := heart_rate_analysis heart_rate acc in
  let acc := spo2_analysis spo2 acc in
  let acc := temperature_analysis temp acc in
  let '(score, factors) := critical_events fall_detected help_pressed acc in
  let '(emotion, color) := emotion_classification score in
  {| emotion := emotion; score := score; color := color;
     factors := factors |}.

End EmotionAnalyzer.

(** ** The scorer as the specification words it

  A table of independent rules (condition, points, factor tag) and a
  classification by descending inclusive thresholds. *)

Module ScorerSpec.

Inductive Emotion :=
| Stable | MildDiscomfort | ModerateStress | HighAnxiety | CriticalDistress.

Definition emotion_name (e : Emotion) : string :=
  match e with
  | Stable => "STABLE"
  | MildDiscomfort => "MILD DISCOMFORT"
  | ModerateStress => "MODERATE STRESS"
  | HighAnxiety => "HIGH ANXIETY"
  | CriticalDistress => "CRITICAL DISTRESS"
  end.

Definition rules (heartRate spo2 : Z) (temperature : float)
    (fallDetected helpPressed : bool) : list (bool * Z * string) :=
  [ (130 <? heartRate, 30, "elevated_hr");
    ((110 <? heartRate) && (heartRate <=? 130), 15, "raised_hr");
    (spo2 <? 92, 25, "low_oxygen");
    ((92 <=? spo2) && (spo2 <? 95), 10, "reduced_oxygen");
    (fgt temperature 38%float || flt temperature 36%float, 15,
     "temp_abnormal");
    (fallDetected, 40, "fall_trauma");
    (helpPressed, 35, "distress_signal") ].

Definition matching (rs : list (bool * Z * string))
  : list (bool * Z * string) :=
  List.filter (fun r => fst (fst r)) rs.

Definition points_sum (rs : list (bool * Z * string)) : Z :=
  fold_right (fun r acc => snd (fst r) + acc) 0 (matching rs).

Definition tags (rs : list (bool * Z * string)) : list string :=
  List.map snd (matching rs).

Definition classify (score : Z) : Emotion :=
  if 60 <=? score then CriticalDistress
  else if 40 <=? score then HighAnxiety
  else if 25 <=? score then ModerateStress
  else if 10 <=? score then MildDiscomfort
  else Stable.

End ScorerSpec.

(** ** The spreadsheet behind the ledger

    A pandas [DataFrame] is its column names and its rows, each row the
    dict it was built from.  The workbook maps a sheet name to the frame
    stored in that sheet; the file is [None] while the path does not
    exist. *)

Inductive Cell :=
| CStr (s : string)
| CInt (n : Z)
| CFloat (x : float).

Record DataFrame := mkDataFrame {
  df_columns : list string;
  df_rows : list (list (string * Cell))
}.

Module pd.

(** [pd.DataFrame(columns=cols)] *)
Definition DataFrame_columns (cols : list string) : DataFrame :=
  {| df_columns := cols; df_rows := [] |}.

(** [pd.DataFrame([row])] *)
Definition DataFrame_record (row : list (string * Cell)) : DataFrame :=
  {| df_columns := List.map fst row; df_rows := [row] |}.

(** [pd.concat([a, b], ignore_index=True)]: the columns of [a], then
    those of [b] that [a] lacks; the rows of [a], then the rows of [b]. *)
Definition concat (a b : DataFrame) : DataFrame :=
  {| df_columns :=
       df_columns a ++
       List.filter (fun c => negb (existsb (String.eqb c) (df_columns a)))
                   (df_columns b);
     df_rows := df_rows a ++ df_rows b |}.

(** [pd.read_excel(file, sheet_name=sheet)]: [None] stands for the
    exception raised when the file or the sheet is missing. *)
Definition read_excel (file : option (gmap string DataFrame))
    (sheet : string) : option DataFrame :=
  match file with
  | Some wb => wb !! sheet
  | None => None
  end.

(** [with pd.ExcelWriter(file, mode='a', if_sheet_exists='overlay')]
    followed by [df.to_excel(writer, sheet_name=sheet)]: mode ['a'] needs
    the file to exist ([None] is the exception otherwise); the frame is
    written over the sheet and the other sheets are kept. *)
Definition to_excel_overlay (file : option (gmap string DataFrame))
    (sheet : string) (df : DataFrame) : option (gmap string DataFrame) :=
  match file with
  | Some wb => Some (<[sheet := df]> wb)
  | None => None
  end.

End pd.

Module VitalSignsMonitor.

(** [init_excel_file]: when the file does not exist, write the four
    sheets, each with its header and no row; otherwise do nothing. *)
Definition new_workbook : gmap string DataFrame :=
  <["Help_Requests" := pd.DataFrame_columns ["Help_Request_Timestamp"]]>
  (<["Fall_Events" := pd.DataFrame_columns ["Fall_Timestamp"]]>
  (<["Emergency_Calls" := pd.DataFrame_columns
       ["Timestamp"; "Alert_Type"; "Heart_Rate"; "SpO2"; "Temperature";
        "Emotion_State"; "Auto_Triggered"]]>
  (<["Vital_Signs" := pd.DataFrame_columns
       ["Timestamp"; "Heart_Rate_BPM"; "SpO2_Percent";
        "Temperature_Celsius"; "Emotional_State"; "Emotion_Score"]]>
   ∅))).

Definition init_excel_file (file : option (gmap string DataFrame))
  : option (gmap string DataFrame) :=
  match file with
  | None => Some new_workbook
  | Some wb => Some wb
  end.

(** The body shared by the four [append_*] methods: read the sheet,
    concatenate the new row, write the sheet back.  Any exception is
    caught and printed, which leaves the file as it was. *)
Definition append_row (sheet : string) (new_row : list (string * Cell))
    (file : option (gmap string DataFrame))
  : option (gmap string DataFrame) :=
  match pd.read_excel file sheet with
  | Some existing_df =>
      let updated_df := pd.concat existing_df (pd.DataFrame_record new_row) in
      match pd.to_excel_overlay file sheet updated_df with
      | Some file' => Some file'
      | None => file
      end
  | None => file
  end.

Definition vital_row (now_str : string) (hr spo2 : Z) (temp : float)
    (emotion : string) (score : Z) : list (string * Cell) :=
  [ ("Timestamp", CStr now_str);
    ("Heart_Rate_BPM", CInt hr);
    ("SpO2_Percent", CInt spo2);
    ("Temperature_Celsius", CFloat temp);
    ("Emotional_State", CStr emotion);
    ("Emotion_Score", CInt score) ].

Definition append_vital_reading (now_str : string) (hr spo2 : Z)
    (temp : float) (emotion : string) (score : Z)
    (file : option (gmap string DataFrame)) :=
  append_row "Vital_Signs" (vital_row now_str hr spo2 temp emotion score) file.

Definition emergency_row (now_str alert_type : string) (hr spo2 : Z)
    (temp : float) (emotion : string) (auto_triggered : bool)
  : list (string * Cell) :=
  [ ("Timestamp", CStr now_str);
    ("Alert_Type", CStr alert_type);
    ("Heart_Rate", CInt hr);
    ("SpO2", CInt spo2);
    ("Temperature", CFloat temp);
    ("Emotion_State", CStr emotion);
    ("Auto_Triggered", CStr (if auto_triggered then "YES" else "NO")) ].

Definition append_emergency_call (now_str alert_type : string) (hr spo2 : Z)
    (temp : float) (emotion : string) (auto_triggered : bool)
    (file : option (gmap string DataFrame)) :=
  append_row "Emergency_Calls"
    (emergency_row now_str alert_type hr spo2 temp emotion auto_triggered)
    file.

Definition append_fall_event (now_str : string)
    (file : option (gmap string DataFrame)) :=
  append_row "Fall_Events" [("Fall_Timestamp", CStr now_str)] file.

Definition append_help_request (now_str : string)
    (file : option (gmap string DataFrame)) :=
  append_row "Help_Requests" [("Help_Request_Timestamp", CStr now_str)] file.

(** The rows a sheet holds (none when the file or the sheet is missing). *)
Definition sheet_rows (file : option (gmap string DataFrame))
    (sheet : string) : list (list (string * Cell)) :=
  match pd.read_excel file sheet with
  | Some df => df_rows df
  | None => []
  end.

End VitalSignsMonitor.

(** ** The process state

    [LAST_AUTO_CALL] is the module-level global.  [excel_file] is the
    content of the workbook on disk.  [call_counter] is the number shown
    by the label whose text is always [Total Calls: n] (the label is
    written with that format only, and read back by parsing it).
    [calls_created] is the trace of the requests handed to
    [client.calls.create], whatever their outcome, and [analyze_calls]
    the trace of the argument tuples [EmotionAnalyzer.analyze] was called
    with; the source keeps neither list, they record what happened.  The
    Twilio client is taken as constructed. *)

Inductive StatusText :=
| SystemActive
| AlertProcessed.

(** The sentence chosen by the [alert_type] chain, with what it embeds. *)
Inductive Reason :=
| ReasonHelp (emotion : string)
| ReasonHeart (hr : Z)
| ReasonFall
| ReasonSpo2 (spo2 : Z)
| ReasonTemp (temp : float)
| ReasonGeneral.

Record Twiml := mkTwiml {
  auto_prefix : bool;
  reason : Reason;
  say_hr : Z;
  say_spo2 : Z;
  say_temp : float
}.

Record SensorData := mkSensorData {
  sd_hr : Z;
  sd_spo2 : Z;
  sd_temp : float;
  sd_fall : bool;
  sd_help : bool
}.

Record World := mkWorld {
  LAST_AUTO_CALL : option float;
  excel_file : option (gmap string DataFrame);
  call_counter : Z;
  status_label : StatusText;
  calls_created : list Twiml;
  analyze_calls : list (Z * Z * float * bool * bool)
}.

(** What one run of [trigger_emergency_call] reads from outside: the two
    formatted timestamps, the outcome of [client.calls.create] ([Some sid]
    or [None] for an exception) and the clock read after the call. *)
Record DispatchEnv := mkDispatchEnv {
  call_stamp : string;
  event_stamp : string;
  call_outcome : option string;
  call_time : float
}.

(** What one iteration of the sensor loop reads from outside. *)
Record LoopEnv := mkLoopEnv {
  reading_stamp : string;
  current_time : float;
  dispatch_env : DispatchEnv
}.

(** ** The dispatcher *)

Definition trigger_emergency_call (alert_type : string)
    (sensor_data : SensorData) (auto_triggered : bool)
    (env : DispatchEnv) (w : World) : World :=
  let hr := sd_hr sensor_data in
  let spo2 := sd_spo2 sensor_data in
  let temp := sd_temp sensor_data in
  let fall := sd_fall sensor_data in
  let help_btn := sd_help sensor_data in
  let emotion_state := EmotionAnalyzer.analyze hr spo2 temp fall help_btn in
  let file :=
    VitalSignsMonitor.append_emergency_call (call_stamp env) alert_type
      hr spo2 temp (EmotionAnalyzer.emotion emotion_state) auto_triggered
      (excel_file w) in
  let '(reason, file) :=
    if String.eqb alert_type "HELP" then
      (ReasonHelp (EmotionAnalyzer.emotion emotion_state),
       VitalSignsMonitor.append_help_request (event_stamp env) file)
    else if String.eqb alert_type "HEART" then (ReasonHeart hr, file)
    else if String.eqb alert_type "FALL" then
      (ReasonFall, VitalSignsMonitor.append_fall_event (event_stamp env) file)
    else if String.eqb alert_type "SPO2" then (ReasonSpo2 spo2, file)
    else if String.eqb alert_type "TEMP" then (ReasonTemp temp, file)
    else (ReasonGeneral, file) in
  let twiml_msg :=
    {| auto_prefix := auto_triggered; reason := reason;
       say_hr := hr; say_spo2 := spo2; say_temp := temp |} in
  (* try: client.calls.create(...); counter; LAST_AUTO_CALL / except *)
  let '(counter, last) :=
    match call_outcome env with
    | Some sid =>
        (call_counter w + 1,
         if auto_triggered then Some (call_time env) else LAST_AUTO_CALL w)
    | None => (call_counter w, LAST_AUTO_CALL w)
    end in
  (* the status shown last, after time.sleep(2) *)
  {| LAST_AUTO_CALL := last;
     excel_file := file;
     call_counter := counter;
     status_label := AlertProcessed;
     calls_created := calls_created w ++ [twiml_msg];
     analyze_calls := analyze_calls w ++ [(hr, spo2, temp, fall, help_btn)] |}.

(** ** One iteration of [simulate_sensor_readings] *)

(** The values drawn from [random] in one iteration: [randint(-5, 5)],
    [randint(-1, 1)], the rounded normal temperature, [randint(1, 25)],
    the [choice] of the spike type and the three spike values. *)
Record Draws := mkDraws {
  d_hr : Z;
  d_spo2 : Z;
  d_temp : float;
  d_spike : Z;
  d_spike_type : string;
  d_spike_hr : Z;
  d_spike_spo2 : Z;
  d_spike_temp : float
}.

Definition generate_reading (d : Draws) : Z * Z * float * bool :=
  let hr := 75 + d_hr d in
  let spo2 := 97 + d_spo2 d in
  let temp := d_temp d in
  let should_spike := d_spike d =? 1 in
  if should_spike then
    if String.eqb (d_spike_type d) "HEART" then
      (d_spike_hr d, spo2, temp, should_spike)
    else if String.eqb (d_spike_type d) "SPO2" then
      (hr, d_spike_spo2 d, temp, should_spike)
    else if String.eqb (d_spike_type d) "TEMP" then
      (hr, spo2, d_spike_temp d, should_spike)
    else (hr, spo2, temp, should_spike)
  else (hr, spo2, temp, should_spike).

(** [LAST_AUTO_CALL is None or (current_time - LAST_AUTO_CALL) >=
    AUTO_CALL_COOLDOWN] *)
Definition cooldown_elapsed (last : option float) (current_time : float)
  : bool :=
  match last with
  | None => true
  | Some t => fge (PrimFloat.sub current_time t) AUTO_CALL_COOLDOWN
  end.

(** The [alert_type] chain of the loop. *)
Definition auto_alert_type (hr spo2 : Z) (temp : float) : string :=
  if hr >? HEART_RATE_CRITICAL then "HEART"
  else if spo2 <? SPO2_CRITICAL then "SPO2"
  else if fgt temp TEMP_CRITICAL_HIGH then "TEMP"
  else "GENERAL".

(** The emotion analysis of the reading and its row in the workbook
    ("every reading").  The labels that only display the reading are not
    part of the state. *)
Definition record_reading (hr spo2 : Z) (temp : float) (env : LoopEnv)
    (w : World) : World :=
  let emotion := EmotionAnalyzer.analyze hr spo2 temp false false in
  {| LAST_AUTO_CALL := LAST_AUTO_CALL w;
     excel_file :=
       VitalSignsMonitor.append_vital_reading (reading_stamp env) hr spo2
         temp (EmotionAnalyzer.emotion emotion)
         (EmotionAnalyzer.score emotion) (excel_file w);
     call_counter := call_counter w;
     status_label := status_label w;
     calls_created := calls_created w;
     analyze_calls := analyze_calls w ++ [(hr, spo2, temp, false, false)] |}.

(** [should_spike or emotion['score'] >= 25] *)
Definition auto_trigger (hr spo2 : Z) (temp : float) (should_spike : bool)
  : bool :=
  should_spike
  || (EmotionAnalyzer.score (EmotionAnalyzer.analyze hr spo2 temp false false)
      >=? 25).

(** From the emotion analysis to the end of the iteration.  The thread
    started for the call is run to its end before the iteration returns. *)
Definition process_reading (hr spo2 : Z) (temp : float) (should_spike : bool)
    (env : LoopEnv) (w : World) : World :=
  let w := record_reading hr spo2 temp env w in
  if auto_trigger hr spo2 temp should_spike then
    if cooldown_elapsed (LAST_AUTO_CALL w) (current_time env) then
      let alert_type := auto_alert_type hr spo2 temp in
      let sensor_data :=
        {| sd_hr := hr; sd_spo2 := spo2; sd_temp := temp;
           sd_fall := false; sd_help := false |} in
      trigger_emergency_call alert_type sensor_data true (dispatch_env env) w
    else w
  else w.

Definition sensor_iteration (d : Draws) (env : LoopEnv) (w : World) : World :=
  let '(hr, spo2, temp, should_spike) := generate_reading d in
  process_reading hr spo2 temp should_spike env w.

(** ** The window: start-up and the two user actions *)

Module RafeeqAdvancedSystem.

(** The state once [__init__] has run, from the file found on disk. *)
Definition init (file : option (gmap string DataFrame)) : World :=
  {| LAST_AUTO_CALL := None;
     excel_file := VitalSignsMonitor.init_excel_file file;
     call_counter := 0;
     status_label := SystemActive;
     calls_created := [];
     analyze_calls := [] |}.

Definition trigger_alert (alert_type : string) (hr spo2 : Z) (temp : float)
    (fall help : bool) (env : DispatchEnv) (w : World) : World :=
  let sensor_data :=
    {| sd_hr := hr; sd_spo2 := spo2; sd_temp := temp;
       sd_fall := fall; sd_help := help |} in
  trigger_emergency_call alert_type sensor_data false env w.

Definition reset_counter (w : World) : World :=
  {| LAST_AUTO_CALL := LAST_AUTO_CALL w;
     excel_file := excel_file w;
     call_counter := 0;
     status_label := SystemActive;
     calls_created := calls_created w;
     analyze_calls := analyze_calls w |}.

End RafeeqAdvancedSystem.

(** ** Alert type selection as the specification words it

    An ordered list of (condition, alert type); the first match wins and
    [General] is the default. *)

Module PolicySpec.

Inductive AlertType := Heart | Spo2 | Temp | Fall | Help | General.

Definition alert_name (a : AlertType) : string :=
  match a with
  | Heart => "HEART"
  | Spo2 => "SPO2"
  | Temp => "TEMP"
  | Fall => "FALL"
  | Help => "HELP"
  | General => "GENERAL"
  end.

Definition alertTypeFor (heartRate spo2 : Z) (temperature : float)
  : AlertType :=
  match List.find fst
          [ (140 <? heartRate, Heart);
            (spo2 <? 90, Spo2);
            (fgt temperature 38.5%float, Temp) ] with
  | Some (_, a) => a
  | None => General
  end.

End PolicySpec.

(** ** Appends running as threads

    Every dispatch runs in a thread of its own and the [append_*] methods
    take no lock, so the read and the write of two appends can interleave.
    A thread that runs an append is before its [read_excel], before its
    write with the frame it has built, or back from the method.  A
    schedule names the thread that takes each next step. *)

Module Interleaving.

Inductive AppendThread :=
| BeforeRead (sheet : string) (new_row : list (string * Cell))
| BeforeWrite (sheet : string) (updated_df : DataFrame)
| Returned.

Definition step_thread (t : AppendThread)
    (file : option (gmap string DataFrame))
  : AppendThread * option (gmap string DataFrame) :=
  match t with
  | BeforeRead sheet new_row =>
      match pd.read_excel file sheet with
      | Some existing_df =>
          (BeforeWrite sheet
             (pd.concat existing_df (pd.DataFrame_record new_row)), file)
      | None => (Returned, file)
      end
  | BeforeWrite sheet updated_df =>
      match pd.to_excel_overlay file sheet updated_df with
      | Some file' => (Returned, Some file')
      | None => (Returned, file)
      end
  | Returned => (Returned, file)
  end.

Fixpoint run (schedule : list nat) (threads : list AppendThread)
    (file : option (gmap string DataFrame))
  : list AppendThread * option (gmap string DataFrame) :=
  match schedule with
  | [] => (threads, file)
  | i :: schedule' =>
      match threads !! i with
      | Some t =>
          let '(t', file') := step_thread t file in
          run schedule' (<[i := t']> threads) file'
      | None => run schedule' threads file
      end
  end.

(** The schedule that lets each thread of [order] run its whole append
    before the next one starts. *)
Definition serial (order : list nat) : list nat :=
  List.flat_map (fun i => [i; i]) order.

(** [n] threads, thread [i] appending [rows !! i] to [sheet]. *)
Definition appenders (sheet : string) (rows : list (list (string * Cell)))
  : list AppendThread :=
  BeforeRead sheet <$> rows.

End Interleaving.

(** ** The unstable-case label of the sensor loop

    The label lists the vitals beyond the warning thresholds, each with
    its value; the numbers stay numbers here instead of being formatted
    into the text.  With no vital to list the text is the fixed sentence
    about emotional stress ([None]). *)

Inductive UnstableFactor :=
| HighHR (hr : Z)
| LowO2 (spo2 : Z)
| AbnormalTemp (temp : float).

Definition unstable_factors (hr spo2 : Z) (temp : float)
  : list UnstableFactor :=
  let unstable_factors := [] in
  let unstable_factors :=
    if hr >? HEART_RATE_WARNING then unstable_factors ++ [HighHR hr]
    else unstable_factors in
  let unstable_factors :=
    if spo2 <? SPO2_WARNING then unstable_factors ++ [LowO2 spo2]
    else unstable_factors in
  if fgt temp TEMP_CRITICAL_HIGH || flt temp TEMP_CRITICAL_LOW
  then unstable_factors ++ [AbnormalTemp temp]
  else unstable_factors.

Inductive CaseLabel :=
| UnstableCase (emotion : string) (shown : option (list UnstableFactor))
    (color : string)
| StableCase.

Definition unstable_case_label (hr spo2 : Z) (temp : float) : CaseLabel :=
  let emotion := EmotionAnalyzer.analyze hr spo2 temp false false in
  let unstable_factors := unstable_factors hr spo2 temp in
  if negb (String.eqb (EmotionAnalyzer.emotion emotion) "STABLE") then
    UnstableCase (EmotionAnalyzer.emotion emotion)
      (match unstable_factors with
       | [] => None
       | _ :: _ => Some unstable_factors
       end)
      (EmotionAnalyzer.color emotion)
  else StableCase.

(** The header row of a sheet ([None] when the file or the sheet is
    missing). *)
Definition sheet_header (file : option (gmap string DataFrame))
    (sheet : string) : option (list string) :=
  df_columns <$> pd.read_excel file sheet.

(** The workbook has the four sheets with the headers [init_excel_file]
    writes. *)
Definition has_schema (file : option (gmap string DataFrame)) : Prop :=
  sheet_header file "Vital_Signs"
    = sheet_header (Some VitalSignsMonitor.new_workbook) "Vital_Signs"
  /\ sheet_header file "Emergency_Calls"
     = sheet_header (Some VitalSignsMonitor.new_workbook) "Emergency_Calls"
  /\ sheet_header file "Fall_Events"
     = sheet_header (Some VitalSignsMonitor.new_workbook) "Fall_Events"
  /\ sheet_header file "Help_Requests"
     = sheet_header (Some VitalSignsMonitor.new_workbook) "Help_Requests".

(** ** The process as a sequence of events

    The sensor thread runs its iterations one after the other and the
    window runs a callback for every click; an event is one iteration or
    one click, with the dispatch it starts run to its end. *)

Inductive Event :=
| SensorTick (d : Draws) (env : LoopEnv)
| ButtonAlert (alert_type : string) (hr spo2 : Z) (temp : float)
    (fall help : bool) (env : DispatchEnv)
| ButtonReset.

Definition handle (e : Event) (w : World) : World :=
  match e with
  | SensorTick d env => sensor_iteration d env w
  | ButtonAlert alert_type hr spo2 temp fall help env =>
      RafeeqAdvancedSystem.trigger_alert alert_type hr spo2 temp fall help
        env w
  | ButtonReset => RafeeqAdvancedSystem.reset_counter w
  end.

Definition run_events (es : list Event) (w : World) : World :=
  fold_left (fun w e => handle e w) es w.

(** The number of sensor iterations among the events. *)
Definition ticks (es : list Event) : nat :=
  length (List.filter (fun e => match e with SensorTick _ _ => true
                                           | _ => false end) es).


(** * Properties *)

(** ** The scorer *)

(** Splits every integer comparison of the goal into its two cases,
    dropping a case as soon as its bounds contradict each other. *)
Ltac split_comparisons :=
  repeat match goal with
    | |- context [?a >? ?b] => rewrite (Z.gtb_ltb a b)
    | |- context [?a >=? ?b] => rewrite (Z.geb_leb a b)
    end;
  repeat match goal with
    | |- context [?a <? ?b] =>
        destruct (Z.ltb_spec a b); try (exfalso; lia)
    | |- context [?a <=? ?b] =>
        destruct (Z.leb_spec a b); try (exfalso; lia)
    end.

(** Unfolds the scorer and the rule table, then enumerates the cases of
    the five inputs. *)
Ltac scorer_cases temp fall help :=
  unfold EmotionAnalyzer.analyze, EmotionAnalyzer.heart_rate_analysis,
    EmotionAnalyzer.spo2_analysis, EmotionAnalyzer.temperature_analysis,
    EmotionAnalyzer.critical_events, ScorerSpec.rules;
  split_comparisons;
  destruct (fgt temp 38%float), (flt temp 36%float), fall, help.

Lemma classify_agrees (score : Z) :
  fst (EmotionAnalyzer.emotion_classification score)
  = ScorerSpec.emotion_name (ScorerSpec.classify score).
Proof.
  unfold EmotionAnalyzer.emotion_classification, ScorerSpec.classify.
  split_comparisons; reflexivity.
Qed.

Lemma analyze_emotion (hr spo2 : Z) (temp : float) (fall help : bool) :
  EmotionAnalyzer.emotion (EmotionAnalyzer.analyze hr spo2 temp fall help)
  = fst (EmotionAnalyzer.emotion_classification
           (EmotionAnalyzer.score
              (EmotionAnalyzer.analyze hr spo2 temp fall help))).
Proof.
  unfold EmotionAnalyzer.analyze.
  destruct (EmotionAnalyzer.critical_events _ _ _) as [s f].
  destruct (EmotionAnalyzer.emotion_classification s) as [e c] eqn:E.
  cbn. now rewrite E.
Qed.

Example analyze_score_60 :
  EmotionAnalyzer.analyze 100 91 37%float false true
  = {| EmotionAnalyzer.emotion := "CRITICAL DISTRESS";
       EmotionAnalyzer.score := 60;
       EmotionAnalyzer.color := "#D50000";
       EmotionAnalyzer.factors := ["low_oxygen"; "distress_signal"] |}.
Proof. reflexivity. Qed.

Example analyze_manual_heart_button :
  EmotionAnalyzer.analyze 155 96 37%float false false
  = {| EmotionAnalyzer.emotion := "MODERATE STRESS";
       EmotionAnalyzer.score := 30;
       EmotionAnalyzer.color := "#FFA000";
       EmotionAnalyzer.factors := ["elevated_hr"] |}.
Proof. reflexivity. Qed.

(** C1: for every input the score of [analyze] is the sum of the points
    of the matching rules of the table, its factors are exactly the tags
    of the matching rules (in table order, none twice), and its emotion is
    the one the descending inclusive thresholds 60, 40, 25, 10 give for
    that score; 60 classifies as CriticalDistress and 59 as HighAnxiety. *)
Theorem analyze_is_rule_table (hr spo2 : Z) (temp : float) (fall help : bool) :
  EmotionAnalyzer.score (EmotionAnalyzer.analyze hr spo2 temp fall help)
    = ScorerSpec.points_sum (ScorerSpec.rules hr spo2 temp fall help)
  /\ EmotionAnalyzer.factors (EmotionAnalyzer.analyze hr spo2 temp fall help)
    = ScorerSpec.tags (ScorerSpec.rules hr spo2 temp fall help)
  /\ NoDup (EmotionAnalyzer.factors
              (EmotionAnalyzer.analyze hr spo2 temp fall help))
  /\ EmotionAnalyzer.emotion (EmotionAnalyzer.analyze hr spo2 temp fall help)
    = ScorerSpec.emotion_name
        (ScorerSpec.classify
           (EmotionAnalyzer.score
              (EmotionAnalyzer.analyze hr spo2 temp fall help)))
  /\ ScorerSpec.classify 60 = ScorerSpec.CriticalDistress
  /\ ScorerSpec.classify 59 = ScorerSpec.HighAnxiety.
Proof.
  scorer_cases temp fall help;
    (split; [reflexivity|split; [reflexivity|split; [|repeat split]]]);
    apply (bool_decide_unpack _); vm_compute; exact I.
Qed.

(** Closes a goal from a membership of a tag in a list of other tags. *)
Ltac factor_absent E :=
  repeat (destruct E as [E|E]; [discriminate E|]); exact E.

(** C10: the emotion is STABLE exactly when no factor was recorded, which
    is exactly when the score is 0; the two heart-rate tags never occur
    together, nor do the two oxygen tags; the score is at most 145. *)
Theorem analyze_stable_factors_bound
    (hr spo2 : Z) (temp : float) (fall help : bool) :
  (EmotionAnalyzer.emotion (EmotionAnalyzer.analyze hr spo2 temp fall help)
     = "STABLE"
   <-> EmotionAnalyzer.factors
         (EmotionAnalyzer.analyze hr spo2 temp fall help) = [])
  /\ (EmotionAnalyzer.factors
        (EmotionAnalyzer.analyze hr spo2 temp fall help) = []
      <-> EmotionAnalyzer.score
            (EmotionAnalyzer.analyze hr spo2 temp fall help) = 0)
  /\ ~ (In "elevated_hr"
          (EmotionAnalyzer.factors
             (EmotionAnalyzer.analyze hr spo2 temp fall help))
        /\ In "raised_hr"
             (EmotionAnalyzer.factors
                (EmotionAnalyzer.analyze hr spo2 temp fall help)))
  /\ ~ (In "low_oxygen"
          (EmotionAnalyzer.factors
             (EmotionAnalyzer.analyze hr spo2 temp fall help))
        /\ In "reduced_oxygen"
             (EmotionAnalyzer.factors
                (EmotionAnalyzer.analyze hr spo2 temp fall help)))
  /\ 0 <= EmotionAnalyzer.score
            (EmotionAnalyzer.analyze hr spo2 temp fall help) <= 145.
Proof.
  scorer_cases temp fall help; vm_compute;
    (split; [split; intros E; first [reflexivity | discriminate E]|]);
    (split; [split; intros E; first [reflexivity | discriminate E]|]);
    (split; [intros [E1 E2]; factor_absent E1 || factor_absent E2|]);
    (split; [intros [E1 E2]; factor_absent E1 || factor_absent E2|]);
    split; intros E; discriminate E.
Qed.

(** ** The ledger *)

Lemma append_row_same (sheet : string) (row : list (string * Cell))
    (file : option (gmap string DataFrame)) (df : DataFrame) :
  pd.read_excel file sheet = Some df ->
  pd.read_excel (VitalSignsMonitor.append_row sheet row file) sheet
  = Some (pd.concat df (pd.DataFrame_record row)).
Proof.
  intros R. unfold VitalSignsMonitor.append_row. rewrite R.
  destruct file as [wb|]; [|discriminate R].
  cbn. apply lookup_insert_eq.
Qed.

Lemma append_row_other (sheet other : string) (row : list (string * Cell))
    (file : option (gmap string DataFrame)) :
  sheet <> other ->
  pd.read_excel (VitalSignsMonitor.append_row sheet row file) other
  = pd.read_excel file other.
Proof.
  intros N. unfold VitalSignsMonitor.append_row.
  destruct (pd.read_excel file sheet) as [df|]; [|reflexivity].
  destruct file as [wb|]; [|reflexivity].
  cbn. now apply lookup_insert_ne.
Qed.

Lemma append_row_rows_same (sheet : string) (row : list (string * Cell))
    (file : option (gmap string DataFrame)) :
  is_Some (pd.read_excel file sheet) ->
  VitalSignsMonitor.sheet_rows (VitalSignsMonitor.append_row sheet row file)
    sheet
  = VitalSignsMonitor.sheet_rows file sheet ++ [row].
Proof.
  intros [df R]. unfold VitalSignsMonitor.sheet_rows.
  rewrite (append_row_same _ _ _ _ R), R. reflexivity.
Qed.

Lemma append_row_rows_other (sheet other : string)
    (row : list (string * Cell)) (file : option (gmap string DataFrame)) :
  sheet <> other ->
  VitalSignsMonitor.sheet_rows (VitalSignsMonitor.append_row sheet row file)
    other
  = VitalSignsMonitor.sheet_rows file other.
Proof.
  intros N. unfold VitalSignsMonitor.sheet_rows.
  now rewrite append_row_other.
Qed.

(** ** The dispatcher, field by field *)

Lemma dispatch_LAST_AUTO_CALL (alert_type : string) (sd : SensorData)
    (auto : bool) (env : DispatchEnv) (w : World) :
  LAST_AUTO_CALL (trigger_emergency_call alert_type sd auto env w)
  = match call_outcome env with
    | Some _ => if auto then Some (call_time env) else LAST_AUTO_CALL w
    | None => LAST_AUTO_CALL w
    end.
Proof.
  unfold trigger_emergency_call.
  destruct (call_outcome env); repeat case_match; simplify_eq; reflexivity.
Qed.

Lemma dispatch_call_counter (alert_type : string) (sd : SensorData)
    (auto : bool) (env : DispatchEnv) (w : World) :
  call_counter (trigger_emergency_call alert_type sd auto env w)
  = match call_outcome env with
    | Some _ => call_counter w + 1
    | None => call_counter w
    end.
Proof.
  unfold trigger_emergency_call.
  destruct (call_outcome env); repeat case_match; simplify_eq; reflexivity.
Qed.

Lemma dispatch_calls_created (alert_type : string) (sd : SensorData)
    (auto : bool) (env : DispatchEnv) (w : World) :
  exists r : Reason,
    calls_created (trigger_emergency_call alert_type sd auto env w)
    = calls_created w
      ++ [ {| auto_prefix := auto; reason := r; say_hr := sd_hr sd;
              say_spo2 := sd_spo2 sd; say_temp := sd_temp sd |} ].
Proof.
  unfold trigger_emergency_call.
  repeat case_match; simplify_eq; eexists; reflexivity.
Qed.

Lemma dispatch_analyze_calls (alert_type : string) (sd : SensorData)
    (auto : bool) (env : DispatchEnv) (w : World) :
  analyze_calls (trigger_emergency_call alert_type sd auto env w)
  = analyze_calls w
    ++ [(sd_hr sd, sd_spo2 sd, sd_temp sd, sd_fall sd, sd_help sd)].
Proof.
  unfold trigger_emergency_call.
  repeat case_match; simplify_eq; reflexivity.
Qed.

Lemma dispatch_vital_rows (alert_type : string) (sd : SensorData)
    (auto : bool) (env : DispatchEnv) (w : World) :
  VitalSignsMonitor.sheet_rows
    (excel_file (trigger_emergency_call alert_type sd auto env w))
    "Vital_Signs"
  = VitalSignsMonitor.sheet_rows (excel_file w) "Vital_Signs".
Proof.
  unfold trigger_emergency_call, VitalSignsMonitor.append_emergency_call,
    VitalSignsMonitor.append_help_request,
    VitalSignsMonitor.append_fall_event.
  repeat case_match; simplify_eq; cbn [excel_file];
    rewrite ?append_row_rows_other by discriminate; reflexivity.
Qed.

(** ** The sensor iteration *)

Lemma process_reading_cases (hr spo2 : Z) (temp : float) (spike : bool)
    (env : LoopEnv) (w : World) :
  process_reading hr spo2 temp spike env w
  = if auto_trigger hr spo2 temp spike
       && cooldown_elapsed (LAST_AUTO_CALL w) (current_time env)
    then trigger_emergency_call (auto_alert_type hr spo2 temp)
           {| sd_hr := hr; sd_spo2 := spo2; sd_temp := temp;
              sd_fall := false; sd_help := false |}
           true (dispatch_env env) (record_reading hr spo2 temp env w)
    else record_reading hr spo2 temp env w.
Proof.
  unfold process_reading. cbn [record_reading LAST_AUTO_CALL].
  destruct (auto_trigger hr spo2 temp spike); [|reflexivity].
  destruct (cooldown_elapsed _ _); reflexivity.
Qed.

Lemma process_reading_calls_length (hr spo2 : Z) (temp : float)
    (spike : bool) (env : LoopEnv) (w : World) :
  length (calls_created (process_reading hr spo2 temp spike env w))
  = (length (calls_created w)
     + if auto_trigger hr spo2 temp spike
          && cooldown_elapsed (LAST_AUTO_CALL w) (current_time env)
       then 1 else 0)%nat.
Proof.
  rewrite process_reading_cases.
  destruct (_ && _).
  - destruct (dispatch_calls_created (auto_alert_type hr spo2 temp)
                {| sd_hr := hr; sd_spo2 := spo2; sd_temp := temp;
                   sd_fall := false; sd_help := false |}
                true (dispatch_env env) (record_reading hr spo2 temp env w))
      as [r ->].
    rewrite length_app. reflexivity.
  - cbn. lia.
Qed.

Lemma process_reading_LAST_AUTO_CALL (hr spo2 : Z) (temp : float)
    (spike : bool) (env : LoopEnv) (w : World) :
  LAST_AUTO_CALL (process_reading hr spo2 temp spike env w)
  = if auto_trigger hr spo2 temp spike
       && cooldown_elapsed (LAST_AUTO_CALL w) (current_time env)
    then match call_outcome (dispatch_env env) with
         | Some _ => Some (call_time (dispatch_env env))
         | None => LAST_AUTO_CALL w
         end
    else LAST_AUTO_CALL w.
Proof.
  rewrite process_reading_cases.
  destruct (_ && _); [|reflexivity].
  rewrite dispatch_LAST_AUTO_CALL. reflexivity.
Qed.

(** C2 (as the code has it): an auto-triggered run of the dispatcher sets
    [LAST_AUTO_CALL] to the clock read after the call when
    [client.calls.create] returns, and leaves it as it was when the call
    raises; so does the sensor iteration, which reaches the dispatcher
    only when the reading qualifies and the cooldown has elapsed. *)
Theorem auto_call_updates_cooldown_on_success
    (alert_type : string) (sd : SensorData) (denv : DispatchEnv)
    (hr spo2 : Z) (temp : float) (spike : bool) (env : LoopEnv) (w : World) :
  LAST_AUTO_CALL (trigger_emergency_call alert_type sd true denv w)
  = match call_outcome denv with
    | Some _ => Some (call_time denv)
    | None => LAST_AUTO_CALL w
    end
  /\ LAST_AUTO_CALL (process_reading hr spo2 temp spike env w)
     = if auto_trigger hr spo2 temp spike
          && cooldown_elapsed (LAST_AUTO_CALL w) (current_time env)
       then match call_outcome (dispatch_env env) with
            | Some _ => Some (call_time (dispatch_env env))
            | None => LAST_AUTO_CALL w
            end
       else LAST_AUTO_CALL w.
Proof.
  split.
  - apply dispatch_LAST_AUTO_CALL.
  - apply process_reading_LAST_AUTO_CALL.
Qed.

(** C2, counterexample: from the initial state a spike reading at time 100
    escalates (one request reaches [client.calls.create]), the call
    raises, and [LAST_AUTO_CALL] is still unset. *)
Lemma failed_auto_call_leaves_cooldown_unset :
  let env :=
    {| reading_stamp := "2025-01-01 10:00:00";
       current_time := 100%float;
       dispatch_env :=
         {| call_stamp := "2025-01-01 10:00:00";
            event_stamp := "2025-01-01 10:00:00";
            call_outcome := None;
            call_time := 101%float |} |} in
  let w := process_reading 150 97 37%float true env
             (RafeeqAdvancedSystem.init None) in
  calls_created w
  = [ {| auto_prefix := true; reason := ReasonHeart 150; say_hr := 150;
         say_spo2 := 97; say_temp := 37%float |} ]
  /\ LAST_AUTO_CALL w = None.
Proof. vm_compute. split; reflexivity. Qed.

(** C5: [trigger_alert] hands exactly one request, without the automatic
    prefix, to [client.calls.create] whatever the reading, its score and
    the cooldown state are, and leaves [LAST_AUTO_CALL] unchanged whether
    the call succeeds or fails. *)
Theorem manual_trigger_always_dispatches
    (alert_type : string) (hr spo2 : Z) (temp : float) (fall help : bool)
    (env : DispatchEnv) (w : World) :
  (exists r : Reason,
     calls_created
       (RafeeqAdvancedSystem.trigger_alert alert_type hr spo2 temp fall help
          env w)
     = calls_created w
       ++ [ {| auto_prefix := false; reason := r; say_hr := hr;
               say_spo2 := spo2; say_temp := temp |} ])
  /\ LAST_AUTO_CALL
       (RafeeqAdvancedSystem.trigger_alert alert_type hr spo2 temp fall help
          env w)
     = LAST_AUTO_CALL w.
Proof.
  unfold RafeeqAdvancedSystem.trigger_alert. split.
  - apply (dispatch_calls_created alert_type
             {| sd_hr := hr; sd_spo2 := spo2; sd_temp := temp;
                sd_fall := fall; sd_help := help |}).
  - rewrite dispatch_LAST_AUTO_CALL. destruct (call_outcome env); reflexivity.
Qed.

(** C6 (as the code has it): every run of the dispatcher makes one call
    attempt; the counter grows by one when the call succeeds and stays
    when it fails; [reset_counter] sets it to 0 and the sensor iteration
    never lowers it. *)
Theorem call_counter_counts_placed_calls
    (alert_type : string) (sd : SensorData) (auto : bool) (denv : DispatchEnv)
    (hr spo2 : Z) (temp : float) (spike : bool) (env : LoopEnv) (w : World) :
  length (calls_created (trigger_emergency_call alert_type sd auto denv w))
    = S (length (calls_created w))
  /\ call_counter (trigger_emergency_call alert_type sd auto denv w)
     = call_counter w
       + match call_outcome denv with Some _ => 1 | None => 0 end
  /\ call_counter (RafeeqAdvancedSystem.reset_counter w) = 0
  /\ call_counter w <= call_counter (process_reading hr spo2 temp spike env w).
Proof.
  split; [|split; [|split]].
  - destruct (dispatch_calls_created alert_type sd auto denv w) as [r ->].
    rewrite length_app. cbn. lia.
  - rewrite dispatch_call_counter. destruct (call_outcome denv); lia.
  - reflexivity.
  - rewrite process_reading_cases. destruct (_ && _).
    + rewrite dispatch_call_counter. cbn.
      destruct (call_outcome _); lia.
    + cbn. lia.
Qed.

(** C6, counterexample: a manual HEART alert whose call raises is one
    attempt, and the counter stays 0. *)
Lemma failed_call_is_not_counted :
  let env :=
    {| call_stamp := "2025-01-01 10:00:00";
       event_stamp := "2025-01-01 10:00:00";
       call_outcome := None;
       call_time := 101%float |} in
  let w := RafeeqAdvancedSystem.trigger_alert "HEART" 155 96 37%float
             false false env (RafeeqAdvancedSystem.init None) in
  length (calls_created w) = 1%nat /\ call_counter w = 0.
Proof. vm_compute. split; reflexivity. Qed.

(** C7: the alert type of an automatic escalation is the first match of
    heart rate > 140 (HEART), SpO2 < 90 (SPO2), temperature > 38.5 (TEMP),
    and GENERAL when none matches; an iteration that escalates runs the
    dispatcher with that type. *)
Theorem auto_alert_type_first_match
    (hr spo2 : Z) (temp : float) (spike : bool) (env : LoopEnv) (w : World) :
  auto_alert_type hr spo2 temp
  = PolicySpec.alert_name (PolicySpec.alertTypeFor hr spo2 temp)
  /\ process_reading hr spo2 temp spike env w
     = if auto_trigger hr spo2 temp spike
          && cooldown_elapsed (LAST_AUTO_CALL w) (current_time env)
       then trigger_emergency_call
              (PolicySpec.alert_name (PolicySpec.alertTypeFor hr spo2 temp))
              {| sd_hr := hr; sd_spo2 := spo2; sd_temp := temp;
                 sd_fall := false; sd_help := false |}
              true (dispatch_env env) (record_reading hr spo2 temp env w)
       else record_reading hr spo2 temp env w.
Proof.
  assert (auto_alert_type hr spo2 temp
          = PolicySpec.alert_name (PolicySpec.alertTypeFor hr spo2 temp))
    as E.
  { unfold auto_alert_type, PolicySpec.alertTypeFor, HEART_RATE_CRITICAL,
      SPO2_CRITICAL, TEMP_CRITICAL_HIGH.
    rewrite Z.gtb_ltb. cbn [find fst].
    destruct (140 <? hr); [reflexivity|].
    destruct (spo2 <? 90); [reflexivity|].
    destruct (fgt temp 38.5%float); reflexivity. }
  split; [exact E|].
  rewrite <- E. apply process_reading_cases.
Qed.

Lemma cooldown_elapsed_iff (last : option float) (now : float) :
  cooldown_elapsed last now = true
  <-> last = None
      \/ exists t, last = Some t /\ fge (PrimFloat.sub now t) 30%float = true.
Proof.
  unfold cooldown_elapsed, AUTO_CALL_COOLDOWN. destruct last as [t|].
  - split.
    + intros E. right. exists t. split; [reflexivity|exact E].
    + intros [E|[t' [E G]]]; [discriminate E|]. now injection E as ->.
  - split; [now left|reflexivity].
Qed.

(** C4 (as the code has it): the gate lets a reading through exactly when
    [LAST_AUTO_CALL] is unset or at least 30 seconds old.  Starting with
    no call recorded, of three qualifying readings at times 0, 29 and 31,
    the first escalates; when its call succeeds and records time 0, the
    second does not escalate and the third does. *)
Theorem cooldown_gate_after_placed_call
    (hr1 spo2_1 : Z) (temp1 : float) (spike1 : bool)
    (hr2 spo2_2 : Z) (temp2 : float) (spike2 : bool)
    (hr3 spo2_3 : Z) (temp3 : float) (spike3 : bool)
    (stamp1 stamp2 stamp3 sid : string) (denv2 denv3 : DispatchEnv)
    (w : World) :
  auto_trigger hr1 spo2_1 temp1 spike1 = true ->
  auto_trigger hr2 spo2_2 temp2 spike2 = true ->
  auto_trigger hr3 spo2_3 temp3 spike3 = true ->
  LAST_AUTO_CALL w = None ->
  let env1 :=
    {| reading_stamp := stamp1; current_time := 0%float;
       dispatch_env :=
         {| call_stamp := stamp1; event_stamp := stamp1;
            call_outcome := Some sid; call_time := 0%float |} |} in
  let env2 :=
    {| reading_stamp := stamp2; current_time := 29%float;
       dispatch_env := denv2 |} in
  let env3 :=
    {| reading_stamp := stamp3; current_time := 31%float;
       dispatch_env := denv3 |} in
  let w1 := process_reading hr1 spo2_1 temp1 spike1 env1 w in
  let w2 := process_reading hr2 spo2_2 temp2 spike2 env2 w1 in
  let w3 := process_reading hr3 spo2_3 temp3 spike3 env3 w2 in
  (forall (last : option float) (now : float),
     cooldown_elapsed last now = true
     <-> last = None
         \/ exists t,
              last = Some t /\ fge (PrimFloat.sub now t) 30%float = true)
  /\ length (calls_created w1) = S (length (calls_created w))
  /\ calls_created w2 = calls_created w1
  /\ length (calls_created w3) = S (length (calls_created w2)).
Proof.
  intros C1 C2 C3 L env1 env2 env3 w1 w2 w3.
  assert (LAST_AUTO_CALL w1 = Some 0%float) as L1.
  { unfold w1. rewrite process_reading_LAST_AUTO_CALL, C1, L. reflexivity. }
  assert (w2 = record_reading hr2 spo2_2 temp2 env2 w1) as E2.
  { unfold w2. rewrite process_reading_cases, C2, L1. reflexivity. }
  assert (LAST_AUTO_CALL w2 = Some 0%float) as L2.
  { rewrite E2. exact L1. }
  split; [exact cooldown_elapsed_iff|split; [|split]].
  - unfold w1. rewrite process_reading_calls_length, C1, L. cbn. lia.
  - rewrite E2. reflexivity.
  - unfold w3. rewrite process_reading_calls_length, C3, L2. cbn. lia.
Qed.

(** C4, witness: three spike readings from the initial state. *)
Lemma cooldown_gate_after_placed_call_witness :
  let env t o :=
    {| reading_stamp := "2025-01-01 10:00:00"; current_time := t;
       dispatch_env :=
         {| call_stamp := "2025-01-01 10:00:00";
            event_stamp := "2025-01-01 10:00:00";
            call_outcome := o; call_time := t |} |} in
  let w0 := RafeeqAdvancedSystem.init None in
  let w1 := process_reading 150 97 37%float true (env 0%float (Some "CA1")) w0 in
  let w2 := process_reading 150 97 37%float true (env 29%float (Some "CA2")) w1 in
  let w3 := process_reading 150 97 37%float true (env 31%float (Some "CA3")) w2 in
  length (calls_created w1) = 1%nat
  /\ calls_created w2 = calls_created w1
  /\ length (calls_created w3) = S (length (calls_created w2)).
Proof.
  intros env w0 w1 w2 w3.
  apply (cooldown_gate_after_placed_call
           150 97 37%float true 150 97 37%float true 150 97 37%float true
           "2025-01-01 10:00:00" "2025-01-01 10:00:00" "2025-01-01 10:00:00"
           "CA1"
           (dispatch_env (env 29%float (Some "CA2")))
           (dispatch_env (env 31%float (Some "CA3")))
           w0); reflexivity.
Defined.

(** C4, counterexample: the call of the reading at time 0 raises, nothing
    is recorded, and the qualifying reading at time 29 escalates too. *)
Lemma failed_call_lets_next_reading_escalate :
  let env t o :=
    {| reading_stamp := "2025-01-01 10:00:00"; current_time := t;
       dispatch_env :=
         {| call_stamp := "2025-01-01 10:00:00";
            event_stamp := "2025-01-01 10:00:00";
            call_outcome := o; call_time := t |} |} in
  let w0 := RafeeqAdvancedSystem.init None in
  let w1 := process_reading 150 97 37%float true (env 0%float None) w0 in
  let w2 := process_reading 150 97 37%float true (env 29%float (Some "CA2")) w1 in
  auto_trigger 150 97 37%float true = true
  /\ length (calls_created w1) = 1%nat
  /\ length (calls_created w2) = 2%nat.
Proof. vm_compute. repeat split; reflexivity. Qed.

Lemma record_reading_vital_rows (hr spo2 : Z) (temp : float) (env : LoopEnv)
    (w : World) :
  is_Some (pd.read_excel (excel_file w) "Vital_Signs") ->
  VitalSignsMonitor.sheet_rows
    (excel_file (record_reading hr spo2 temp env w)) "Vital_Signs"
  = VitalSignsMonitor.sheet_rows (excel_file w) "Vital_Signs"
    ++ [ VitalSignsMonitor.vital_row (reading_stamp env) hr spo2 temp
           (EmotionAnalyzer.emotion
              (EmotionAnalyzer.analyze hr spo2 temp false false))
           (EmotionAnalyzer.score
              (EmotionAnalyzer.analyze hr spo2 temp false false)) ].
Proof.
  intros S. cbn [record_reading excel_file].
  unfold VitalSignsMonitor.append_vital_reading.
  now apply append_row_rows_same.
Qed.

(** C3 (as the code has it): when the workbook has its Vital_Signs sheet,
    an iteration of the sensor loop scores its reading and adds exactly
    one row for it at the end of that sheet, whether or not it escalates;
    the dispatcher, which scores the reading it is given, adds no row to
    that sheet. *)
Theorem sensor_reading_recorded_once
    (hr spo2 : Z) (temp : float) (spike : bool) (env : LoopEnv)
    (alert_type : string) (sd : SensorData) (auto : bool)
    (denv : DispatchEnv) (w : World) :
  is_Some (pd.read_excel (excel_file w) "Vital_Signs") ->
  VitalSignsMonitor.sheet_rows
    (excel_file (process_reading hr spo2 temp spike env w)) "Vital_Signs"
  = VitalSignsMonitor.sheet_rows (excel_file w) "Vital_Signs"
    ++ [ VitalSignsMonitor.vital_row (reading_stamp env) hr spo2 temp
           (EmotionAnalyzer.emotion
              (EmotionAnalyzer.analyze hr spo2 temp false false))
           (EmotionAnalyzer.score
              (EmotionAnalyzer.analyze hr spo2 temp false false)) ]
  /\ In (hr, spo2, temp, false, false)
        (analyze_calls (process_reading hr spo2 temp spike env w))
  /\ VitalSignsMonitor.sheet_rows
       (excel_file (trigger_emergency_call alert_type sd auto denv w))
       "Vital_Signs"
     = VitalSignsMonitor.sheet_rows (excel_file w) "Vital_Signs".
Proof.
  intros S. split; [|split].
  - rewrite process_reading_cases. destruct (_ && _).
    + rewrite dispatch_vital_rows. now apply record_reading_vital_rows.
    + now apply record_reading_vital_rows.
  - rewrite process_reading_cases. destruct (_ && _).
    + rewrite dispatch_analyze_calls. cbn [record_reading analyze_calls].
      apply in_or_app. left. apply in_or_app. right. now left.
    + cbn [record_reading analyze_calls]. apply in_or_app. right. now left.
  - apply dispatch_vital_rows.
Qed.

(** C3, witness: an escalating spike reading on the new workbook. *)
Lemma sensor_reading_recorded_once_witness :
  let env :=
    {| reading_stamp := "2025-01-01 10:00:00"; current_time := 0%float;
       dispatch_env :=
         {| call_stamp := "2025-01-01 10:00:01";
            event_stamp := "2025-01-01 10:00:01";
            call_outcome := Some "CA1"; call_time := 1%float |} |} in
  let w0 := RafeeqAdvancedSystem.init None in
  VitalSignsMonitor.sheet_rows
    (excel_file (process_reading 150 97 37%float true env w0)) "Vital_Signs"
  = VitalSignsMonitor.sheet_rows (excel_file w0) "Vital_Signs"
    ++ [ VitalSignsMonitor.vital_row "2025-01-01 10:00:00" 150 97 37%float
           (EmotionAnalyzer.emotion
              (EmotionAnalyzer.analyze 150 97 37%float false false))
           (EmotionAnalyzer.score
              (EmotionAnalyzer.analyze 150 97 37%float false false)) ].
Proof.
  intros env w0.
  apply (sensor_reading_recorded_once 150 97 37%float true env "HEART"
           {| sd_hr := 150; sd_spo2 := 97; sd_temp := 37%float;
              sd_fall := false; sd_help := false |}
           true (dispatch_env env) w0).
  vm_compute. eexists. reflexivity.
Defined.

(** C3, counterexample: the reading of a manual HEART alert is scored
    and logged as an emergency call, and the Vital_Signs sheet has no row
    for it. *)
Lemma manual_reading_scored_not_in_vital_log :
  let env :=
    {| call_stamp := "2025-01-01 10:00:00";
       event_stamp := "2025-01-01 10:00:00";
       call_outcome := Some "CA1";
       call_time := 1%float |} in
  let w0 := RafeeqAdvancedSystem.init None in
  let w := RafeeqAdvancedSystem.trigger_alert "HEART" 155 96 37%float
             false false env w0 in
  analyze_calls w = [(155, 96, 37%float, false, false)]
  /\ VitalSignsMonitor.sheet_rows (excel_file w) "Vital_Signs" = []
  /\ VitalSignsMonitor.sheet_rows (excel_file w) "Emergency_Calls"
     = [ VitalSignsMonitor.emergency_row "2025-01-01 10:00:00" "HEART" 155 96
           37%float "MODERATE STRESS" false ].
Proof. vm_compute. repeat split; reflexivity. Qed.

(** C8: on a missing file [init_excel_file] writes the workbook of the
    four sheets, each without rows; on an existing file it changes
    nothing; running it twice is running it once. *)
Theorem init_excel_file_idempotent
    (file : option (gmap string DataFrame)) (wb : gmap string DataFrame) :
  VitalSignsMonitor.init_excel_file None
    = Some VitalSignsMonitor.new_workbook
  /\ dom VitalSignsMonitor.new_workbook
     = ({["Vital_Signs"; "Emergency_Calls"; "Fall_Events"; "Help_Requests"]}
        : gset string)
  /\ map_Forall (fun _ df => df_rows df = [])
       VitalSignsMonitor.new_workbook
  /\ VitalSignsMonitor.init_excel_file (Some wb) = Some wb
  /\ VitalSignsMonitor.init_excel_file
       (VitalSignsMonitor.init_excel_file file)
     = VitalSignsMonitor.init_excel_file file.
Proof.
  split; [reflexivity|split; [|split; [|split]]].
  - unfold VitalSignsMonitor.new_workbook.
    rewrite !dom_insert_L, dom_empty_L. set_solver.
  - unfold VitalSignsMonitor.new_workbook.
    repeat (apply map_Forall_insert_2; [reflexivity|]).
    apply map_Forall_empty.
  - reflexivity.
  - destruct file; reflexivity.
Qed.

(** ** Appends as threads *)

Section Serial.
Local Open Scope nat_scope.
Import Interleaving.

Lemma append_row_is_two_steps (sheet : string) (row : list (string * Cell))
    (file : option (gmap string DataFrame)) :
  run [0; 0] [BeforeRead sheet row] file
  = ([Returned], VitalSignsMonitor.append_row sheet row file).
Proof.
  unfold VitalSignsMonitor.append_row. cbn.
  destruct (pd.read_excel file sheet) as [df|]; cbn; [|reflexivity].
  destruct (pd.to_excel_overlay file sheet _); reflexivity.
Qed.

Lemma run_serial_cons (sheet : string) (row : list (string * Cell))
    (i : nat) (order : list nat) (threads : list AppendThread)
    (wb : gmap string DataFrame) (df : DataFrame) :
  threads !! i = Some (BeforeRead sheet row) ->
  wb !! sheet = Some df ->
  run (serial (i :: order)) threads (Some wb)
  = run (serial order) (<[i := Returned]> threads)
      (Some (<[sheet := pd.concat df (pd.DataFrame_record row)]> wb)).
Proof.
  intros T S.
  change (serial (i :: order)) with (i :: i :: serial order).
  cbn [run]. rewrite T. cbn [step_thread pd.read_excel]. rewrite S.
  rewrite list_lookup_insert_eq by (eapply lookup_lt_Some; exact T).
  cbn [step_thread pd.to_excel_overlay].
  now rewrite list_insert_insert_eq.
Qed.

Lemma run_serial (sheet : string) (row_of : nat -> list (string * Cell))
    (order : list nat) :
  forall (threads : list AppendThread) (wb : gmap string DataFrame)
         (df : DataFrame),
    NoDup order ->
    (forall i, i ∈ order ->
               threads !! i = Some (BeforeRead sheet (row_of i))) ->
    wb !! sheet = Some df ->
    exists (threads' : list AppendThread) (wb' : gmap string DataFrame),
      run (serial order) threads (Some wb) = (threads', Some wb')
      /\ VitalSignsMonitor.sheet_rows (Some wb') sheet
         = df_rows df ++ (row_of <$> order)
      /\ length threads' = length threads
      /\ (forall j, j ∈ order -> threads' !! j = Some Returned)
      /\ (forall j, j ∉ order -> threads' !! j = threads !! j).
Proof.
  induction order as [|i order IH]; intros threads wb df ND T S.
  - exists threads, wb. split; [reflexivity|].
    split; [unfold VitalSignsMonitor.sheet_rows; cbn;
            now rewrite S, app_nil_r|].
    split; [reflexivity|].
    split; [|reflexivity].
    intros j J. now apply elem_of_nil in J.
  - apply NoDup_cons in ND as [NI ND].
    assert (threads !! i = Some (BeforeRead sheet (row_of i))) as Ti
      by (apply T; left).
    rewrite (run_serial_cons sheet (row_of i) i order threads wb df Ti S).
    destruct (IH (<[i := Returned]> threads)
                (<[sheet := pd.concat df (pd.DataFrame_record (row_of i))]> wb)
                (pd.concat df (pd.DataFrame_record (row_of i))) ND)
      as (threads' & wb' & R & Rows & Len & Done & Kept).
    + intros j J. rewrite list_lookup_insert_ne.
      * apply T. now right.
      * intros ->. contradiction.
    + apply lookup_insert_eq.
    + exists threads', wb'. split; [exact R|].
      split; [rewrite Rows; cbn; now rewrite <- app_assoc|].
      split; [now rewrite Len, length_insert|].
      split.
      * intros j J. apply elem_of_cons in J as [->|J]; [|now apply Done].
        rewrite (Kept i NI). apply list_lookup_insert_eq.
        eapply lookup_lt_Some; exact Ti.
      * intros j J. apply not_elem_of_cons in J as [N J].
        rewrite (Kept j J). now apply list_lookup_insert_ne.
Qed.

Lemma lookup_total_seq_fmap (rows : list (list (string * Cell))) :
  (fun i => rows !!! i) <$> seq 0 (length rows) = rows.
Proof.
  apply list_eq. intros i. rewrite list_lookup_fmap.
  destruct (decide (i < length rows)) as [L|G].
  - rewrite lookup_seq_lt by exact L. cbn.
    symmetry. now apply list_lookup_lookup_total_lt.
  - rewrite lookup_seq_ge by lia. cbn.
    symmetry. apply lookup_ge_None_2. lia.
Qed.

(** C9 (as the code has it): when the appends to a sheet run one after
    the other, in any order of the threads, every thread returns and the
    sheet holds its old rows followed by the N new ones. *)
Theorem serial_appends_record_every_row
    (sheet : string) (rows : list (list (string * Cell))) (order : list nat)
    (wb : gmap string DataFrame) (df : DataFrame) :
  wb !! sheet = Some df ->
  order ≡ₚ seq 0 (length rows) ->
  exists (wb' : gmap string DataFrame) (new : list (list (string * Cell))),
    run (serial order) (appenders sheet rows) (Some wb)
    = (replicate (length rows) Returned, Some wb')
    /\ VitalSignsMonitor.sheet_rows (Some wb') sheet = df_rows df ++ new
    /\ new ≡ₚ rows
    /\ length new = length rows.
Proof.
  intros S P.
  assert (NoDup order) as ND by (rewrite P; apply NoDup_seq).
  destruct (run_serial sheet (fun i => rows !!! i) order
              (appenders sheet rows) wb df ND)
    as (threads' & wb' & R & Rows & Len & Done & _).
  - intros i I. rewrite P in I. apply elem_of_seq in I as [_ I].
    unfold appenders. rewrite list_lookup_fmap.
    rewrite (list_lookup_lookup_total_lt rows i) by lia. reflexivity.
  - exact S.
  - assert (((fun i => rows !!! i) <$> order) ≡ₚ rows) as PR.
    { rewrite P. now rewrite lookup_total_seq_fmap. }
    exists wb', ((fun i => rows !!! i) <$> order).
    split; [|split; [exact Rows|split; [exact PR|now rewrite PR]]].
    rewrite R. f_equal.
    unfold appenders in Len. rewrite length_fmap in Len.
    apply list_eq. intros j.
    destruct (decide (j < length rows)) as [L|G].
    + rewrite lookup_replicate_2 by exact L. apply Done.
      rewrite P. apply elem_of_seq. lia.
    + rewrite (lookup_ge_None_2 threads') by lia.
      symmetry. apply lookup_replicate_None. lia.
Qed.

(** C9, witness: two appends, the second thread first. *)
Lemma serial_appends_record_every_row_witness :
  exists (wb' : gmap string DataFrame) (new : list (list (string * Cell))),
    run (serial [1; 0])
      (appenders "Vital_Signs"
         [ VitalSignsMonitor.vital_row "2025-01-01 10:00:00" 75 97 37%float
             "STABLE" 0;
           VitalSignsMonitor.vital_row "2025-01-01 10:00:03" 150 97 37%float
             "MODERATE STRESS" 30 ])
      (Some VitalSignsMonitor.new_workbook)
    = (replicate 2 Returned, Some wb')
    /\ VitalSignsMonitor.sheet_rows (Some wb') "Vital_Signs" = [] ++ new
    /\ new ≡ₚ
         [ VitalSignsMonitor.vital_row "2025-01-01 10:00:00" 75 97 37%float
             "STABLE" 0;
           VitalSignsMonitor.vital_row "2025-01-01 10:00:03" 150 97 37%float
             "MODERATE STRESS" 30 ]
    /\ length new = 2.
Proof.
  apply (serial_appends_record_every_row "Vital_Signs"
           [ VitalSignsMonitor.vital_row "2025-01-01 10:00:00" 75 97 37%float
               "STABLE" 0;
             VitalSignsMonitor.vital_row "2025-01-01 10:00:03" 150 97 37%float
               "MODERATE STRESS" 30 ]
           [1; 0] VitalSignsMonitor.new_workbook
           (pd.DataFrame_columns
              ["Timestamp"; "Heart_Rate_BPM"; "SpO2_Percent";
               "Temperature_Celsius"; "Emotional_State"; "Emotion_Score"])).
  - vm_compute. reflexivity.
  - cbn. apply perm_swap.
Defined.

(** C9, counterexample: no lock is taken; when both threads read before
    either writes, both return and only one of the two rows is in the
    sheet. *)
Lemma interleaved_appends_lose_a_row :
  let r1 := VitalSignsMonitor.emergency_row "2025-01-01 10:00:00" "HEART"
              155 96 37%float "MODERATE STRESS" false in
  let r2 := VitalSignsMonitor.emergency_row "2025-01-01 10:00:00" "SPO2"
              110 88 37%float "MODERATE STRESS" false in
  let result :=
    run [0; 1; 0; 1] (appenders "Emergency_Calls" [r1; r2])
      (Some VitalSignsMonitor.new_workbook) in
  fst result = [Returned; Returned]
  /\ VitalSignsMonitor.sheet_rows (snd result) "Emergency_Calls" = [r2].
Proof. vm_compute. split; reflexivity. Qed.

End Serial.

(** ** More on the scorer *)

(** X1: every score is a multiple of 5; no input scores 59. *)
Theorem score_is_multiple_of_five
    (hr spo2 : Z) (temp : float) (fall help : bool) :
  (EmotionAnalyzer.score (EmotionAnalyzer.analyze hr spo2 temp fall help))
    mod 5 = 0
  /\ EmotionAnalyzer.score (EmotionAnalyzer.analyze hr spo2 temp fall help)
     <> 59.
Proof.
  scorer_cases temp fall help; vm_compute; split;
    first [reflexivity | intros E; discriminate E].
Qed.

(** X2: a detected fall alone brings the score to 40 or more and the
    emotion to HIGH ANXIETY or CRITICAL DISTRESS, a fall with a help
    request is always CRITICAL DISTRESS, a help request alone scores 35
    or more, and the fall adds exactly 40 to the score of the same
    reading without it. *)
Theorem fall_and_help_dominate (hr spo2 : Z) (temp : float) (help : bool) :
  40 <= EmotionAnalyzer.score
          (EmotionAnalyzer.analyze hr spo2 temp true help)
  /\ (EmotionAnalyzer.emotion (EmotionAnalyzer.analyze hr spo2 temp true help)
      = "HIGH ANXIETY"
      \/ EmotionAnalyzer.emotion
           (EmotionAnalyzer.analyze hr spo2 temp true help)
         = "CRITICAL DISTRESS")
  /\ EmotionAnalyzer.emotion (EmotionAnalyzer.analyze hr spo2 temp true true)
     = "CRITICAL DISTRESS"
  /\ 35 <= EmotionAnalyzer.score
             (EmotionAnalyzer.analyze hr spo2 temp false true)
  /\ EmotionAnalyzer.score
       (EmotionAnalyzer.analyze hr spo2 temp true help)
     = EmotionAnalyzer.score
         (EmotionAnalyzer.analyze hr spo2 temp false help) + 40.
Proof.
  unfold EmotionAnalyzer.analyze, EmotionAnalyzer.heart_rate_analysis,
    EmotionAnalyzer.spo2_analysis, EmotionAnalyzer.temperature_analysis,
    EmotionAnalyzer.critical_events.
  split_comparisons;
    destruct (fgt temp 38%float), (flt temp 36%float), help; vm_compute;
    (split; [intros E; discriminate E|]);
    (split; [first [left; reflexivity | right; reflexivity]|]);
    (split; [reflexivity|]);
    (split; [intros E; discriminate E|reflexivity]).
Qed.

(** X3: without a fall or a help request the emotion is CRITICAL DISTRESS
    exactly when the heart rate is above 130, SpO2 is below 92 and the
    temperature is abnormal, all three together; without a fall or a
    help request the score is at most 70. *)
Theorem vitals_alone_critical_iff_all_three (hr spo2 : Z) (temp : float) :
  (EmotionAnalyzer.emotion (EmotionAnalyzer.analyze hr spo2 temp false false)
   = "CRITICAL DISTRESS"
   <-> (130 <? hr) && (spo2 <? 92)
       && (fgt temp 38%float || flt temp 36%float) = true)
  /\ EmotionAnalyzer.score (EmotionAnalyzer.analyze hr spo2 temp false false)
     <= 70.
Proof.
  unfold EmotionAnalyzer.analyze, EmotionAnalyzer.heart_rate_analysis,
    EmotionAnalyzer.spo2_analysis, EmotionAnalyzer.temperature_analysis,
    EmotionAnalyzer.critical_events.
  split_comparisons;
    destruct (fgt temp 38%float), (flt temp 36%float); vm_compute;
    (split; [split; intros E; first [reflexivity | discriminate E]
            |intros E; discriminate E]).
Qed.

(** ** Which readings start an automatic call *)

Lemma auto_trigger_bands (hr spo2 : Z) (temp : float) :
  auto_trigger hr spo2 temp true = true
  /\ auto_trigger hr spo2 temp false
     = (130 <? hr) || (spo2 <? 92)
       || ((110 <? hr)
           && ((spo2 <? 95) || fgt temp 38%float || flt temp 36%float))
       || ((spo2 <? 95) && (fgt temp 38%float || flt temp 36%float)).
Proof.
  split; [reflexivity|].
  unfold auto_trigger, EmotionAnalyzer.analyze,
    EmotionAnalyzer.heart_rate_analysis,
    EmotionAnalyzer.spo2_analysis, EmotionAnalyzer.temperature_analysis,
    EmotionAnalyzer.critical_events.
  rewrite !Z.gtb_ltb.
  destruct (Z.ltb_spec 130 hr), (Z.ltb_spec 110 hr), (Z.ltb_spec spo2 92),
    (Z.ltb_spec spo2 95), (fgt temp 38%float), (flt temp 36%float);
    first [reflexivity | exfalso; lia].
Qed.

(** X4: a spike always qualifies for an automatic call; without a spike
    a reading qualifies exactly when the heart rate is above 130, or SpO2
    is below 92, or two of the milder conditions (heart rate above 110,
    SpO2 below 95, abnormal temperature) hold together. *)
Theorem auto_trigger_by_bands (hr spo2 : Z) (temp : float) :
  auto_trigger hr spo2 temp true = true
  /\ auto_trigger hr spo2 temp false
     = (130 <? hr) || (spo2 <? 92)
       || ((110 <? hr)
           && ((spo2 <? 95) || fgt temp 38%float || flt temp 36%float))
       || ((spo2 <? 95) && (fgt temp 38%float || flt temp 36%float)).
Proof.
  split; [reflexivity|].
  unfold auto_trigger, EmotionAnalyzer.analyze,
    EmotionAnalyzer.heart_rate_analysis,
    EmotionAnalyzer.spo2_analysis, EmotionAnalyzer.temperature_analysis,
    EmotionAnalyzer.critical_events.
  rewrite !Z.gtb_ltb.
  destruct (Z.ltb_spec 130 hr), (Z.ltb_spec 110 hr), (Z.ltb_spec spo2 92),
    (Z.ltb_spec spo2 95), (fgt temp 38%float), (flt temp 36%float);
    first [reflexivity | exfalso; lia].
Qed.

(** X5: without a spike, a reading with heart rate at most 110 and SpO2
    at least 95 never starts a call, whatever its temperature: the
    iteration only records the reading. *)
Theorem fever_alone_places_no_call
    (hr spo2 : Z) (temp : float) (env : LoopEnv) (w : World) :
  hr <= 110 -> 95 <= spo2 ->
  process_reading hr spo2 temp false env w = record_reading hr spo2 temp env w
  /\ calls_created (process_reading hr spo2 temp false env w)
     = calls_created w
  /\ call_counter (process_reading hr spo2 temp false env w) = call_counter w
  /\ LAST_AUTO_CALL (process_reading hr spo2 temp false env w)
     = LAST_AUTO_CALL w.
Proof.
  intros H S.
  assert (auto_trigger hr spo2 temp false = false) as A.
  { destruct (auto_trigger_bands hr spo2 temp) as [_ ->].
    rewrite (proj2 (Z.ltb_ge 130 hr)) by lia.
    rewrite (proj2 (Z.ltb_ge 110 hr)) by lia.
    rewrite (proj2 (Z.ltb_ge spo2 92)) by lia.
    rewrite (proj2 (Z.ltb_ge spo2 95)) by lia.
    reflexivity. }
  rewrite process_reading_cases, A. repeat split; reflexivity.
Qed.

(** X5, witness: 39.25 degrees, above [TEMP_CRITICAL_HIGH]. *)
Lemma fever_alone_places_no_call_witness :
  let env :=
    {| reading_stamp := "2025-01-01 10:00:00"; current_time := 0%float;
       dispatch_env :=
         {| call_stamp := "2025-01-01 10:00:00";
            event_stamp := "2025-01-01 10:00:00";
            call_outcome := Some "CA1"; call_time := 0%float |} |} in
  let w0 := RafeeqAdvancedSystem.init None in
  fgt 39.25%float TEMP_CRITICAL_HIGH = true
  /\ calls_created (process_reading 98 96 39.25%float false env w0)
     = calls_created w0.
Proof.
  intros env w0. split; [reflexivity|].
  apply (fever_alone_places_no_call 98 96 39.25%float env w0); lia.
Defined.

(** X6: a heart rate above 140 or an SpO2 below 90 always qualifies for
    an automatic call, spike or not, and the alert type is then HEART or
    SPO2. *)
Theorem critical_heart_or_oxygen_qualifies
    (hr spo2 : Z) (temp : float) (spike : bool) :
  140 < hr \/ spo2 < 90 ->
  auto_trigger hr spo2 temp spike = true
  /\ (auto_alert_type hr spo2 temp = "HEART"
      \/ auto_alert_type hr spo2 temp = "SPO2").
Proof.
  intros C. split.
  - destruct spike; [reflexivity|].
    destruct (auto_trigger_bands hr spo2 temp) as [_ ->].
    destruct C as [C|C].
    + rewrite (proj2 (Z.ltb_lt 130 hr)) by lia. reflexivity.
    + rewrite (proj2 (Z.ltb_lt spo2 92)) by lia.
      now rewrite orb_true_r.
  - unfold auto_alert_type, HEART_RATE_CRITICAL, SPO2_CRITICAL.
    rewrite Z.gtb_ltb.
    destruct (Z.ltb_spec 140 hr); [now left|].
    destruct (Z.ltb_spec spo2 90); [now right|]. lia.
Qed.

(** X6, witness: SpO2 88 without a spike. *)
Lemma critical_heart_or_oxygen_qualifies_witness :
  auto_trigger 100 88 37%float false = true
  /\ (auto_alert_type 100 88 37%float = "HEART"
      \/ auto_alert_type 100 88 37%float = "SPO2").
Proof.
  apply (critical_heart_or_oxygen_qualifies 100 88 37%float false).
  right. lia.
Defined.

(** ** What a dispatch writes *)

Lemma dispatch_excel_file (alert_type : string) (sd : SensorData)
    (auto : bool) (env : DispatchEnv) (w : World) :
  excel_file (trigger_emergency_call alert_type sd auto env w)
  = let file :=
      VitalSignsMonitor.append_emergency_call (call_stamp env) alert_type
        (sd_hr sd) (sd_spo2 sd) (sd_temp sd)
        (EmotionAnalyzer.emotion
           (EmotionAnalyzer.analyze (sd_hr sd) (sd_spo2 sd) (sd_temp sd)
              (sd_fall sd) (sd_help sd)))
        auto (excel_file w) in
    if String.eqb alert_type "HELP" then
      VitalSignsMonitor.append_help_request (event_stamp env) file
    else if String.eqb alert_type "FALL" then
      VitalSignsMonitor.append_fall_event (event_stamp env) file
    else file.
Proof.
  unfold trigger_emergency_call. cbv zeta.
  destruct (String.eqb alert_type "HELP");
    [destruct (call_outcome env); reflexivity|].
  destruct (String.eqb_spec alert_type "HEART") as [->|_];
    [destruct (call_outcome env); reflexivity|].
  destruct (String.eqb alert_type "FALL");
    [destruct (call_outcome env); reflexivity|].
  destruct (String.eqb alert_type "SPO2");
    [destruct (call_outcome env); reflexivity|].
  destruct (String.eqb alert_type "TEMP");
    destruct (call_outcome env); reflexivity.
Qed.

Lemma append_row_is_Some (sheet other : string) (row : list (string * Cell))
    (file : option (gmap string DataFrame)) :
  is_Some (pd.read_excel file other) ->
  is_Some (pd.read_excel (VitalSignsMonitor.append_row sheet row file) other).
Proof.
  intros S. destruct (decide (sheet = other)) as [->|N].
  - destruct S as [df S]. rewrite (append_row_same _ _ _ _ S). eauto.
  - now rewrite append_row_other.
Qed.


(** X11: when the workbook has its Emergency_Calls sheet, every run of
    the dispatcher adds exactly one row at its end, with the alert type,
    the vitals, the emotion of the reading and the automatic flag,
    whether the call succeeds or fails. *)
Theorem dispatch_logs_emergency_row (alert_type : string) (sd : SensorData)
    (auto : bool) (env : DispatchEnv) (w : World) :
  is_Some (pd.read_excel (excel_file w) "Emergency_Calls") ->
  VitalSignsMonitor.sheet_rows
    (excel_file (trigger_emergency_call alert_type sd auto env w))
    "Emergency_Calls"
  = VitalSignsMonitor.sheet_rows (excel_file w) "Emergency_Calls"
    ++ [ VitalSignsMonitor.emergency_row (call_stamp env) alert_type
           (sd_hr sd) (sd_spo2 sd) (sd_temp sd)
           (EmotionAnalyzer.emotion
              (EmotionAnalyzer.analyze (sd_hr sd) (sd_spo2 sd) (sd_temp sd)
                 (sd_fall sd) (sd_help sd)))
           auto ].
Proof.
  intros S. rewrite dispatch_excel_file. cbv zeta.
  unfold VitalSignsMonitor.append_help_request,
    VitalSignsMonitor.append_fall_event,
    VitalSignsMonitor.append_emergency_call.
  destruct (String.eqb alert_type "HELP");
    [|destruct (String.eqb alert_type "FALL")];
    rewrite ?append_row_rows_other by discriminate;
    now apply append_row_rows_same.
Qed.

(** X11, witness: a manual FALL alert whose call fails. *)
Lemma dispatch_logs_emergency_row_witness :
  let env :=
    {| call_stamp := "2025-01-01 10:00:00";
       event_stamp := "2025-01-01 10:00:01";
       call_outcome := None; call_time := 1%float |} in
  let sd :=
    {| sd_hr := 120; sd_spo2 := 95; sd_temp := 37%float;
       sd_fall := true; sd_help := false |} in
  let w0 := RafeeqAdvancedSystem.init None in
  VitalSignsMonitor.sheet_rows
    (excel_file (trigger_emergency_call "FALL" sd false env w0))
    "Emergency_Calls"
  = VitalSignsMonitor.sheet_rows (excel_file w0) "Emergency_Calls"
    ++ [ VitalSignsMonitor.emergency_row "2025-01-01 10:00:00" "FALL"
           120 95 37%float
           (EmotionAnalyzer.emotion
              (EmotionAnalyzer.analyze 120 95 37%float true false))
           false ].
Proof.
  intros env sd w0.
  apply (dispatch_logs_emergency_row "FALL" sd false env w0).
  vm_compute. eexists. reflexivity.
Defined.


(** X12: when the workbook has the two sheets, a dispatch adds one row
    to Help_Requests exactly when its alert type is HELP and one row to
    Fall_Events exactly when it is FALL; the fall and help flags of the
    reading play no part. *)
Theorem dispatch_event_rows_follow_alert_type
    (alert_type : string) (sd : SensorData) (auto : bool)
    (env : DispatchEnv) (w : World) :
  is_Some (pd.read_excel (excel_file w) "Help_Requests") ->
  is_Some (pd.read_excel (excel_file w) "Fall_Events") ->
  VitalSignsMonitor.sheet_rows
    (excel_file (trigger_emergency_call alert_type sd auto env w))
    "Help_Requests"
  = VitalSignsMonitor.sheet_rows (excel_file w) "Help_Requests"
    ++ (if String.eqb alert_type "HELP"
        then [[("Help_Request_Timestamp", CStr (event_stamp env))]]
        else [])
  /\ VitalSignsMonitor.sheet_rows
       (excel_file (trigger_emergency_call alert_type sd auto env w))
       "Fall_Events"
     = VitalSignsMonitor.sheet_rows (excel_file w) "Fall_Events"
       ++ (if String.eqb alert_type "FALL"
           then [[("Fall_Timestamp", CStr (event_stamp env))]]
           else []).
Proof.
  intros H F. rewrite dispatch_excel_file. cbv zeta.
  unfold VitalSignsMonitor.append_help_request,
    VitalSignsMonitor.append_fall_event,
    VitalSignsMonitor.append_emergency_call.
  destruct (String.eqb_spec alert_type "HELP") as [->|_].
  - cbn [String.eqb Ascii.eqb Bool.eqb].
    rewrite append_row_rows_same by (now apply append_row_is_Some).
    rewrite !append_row_rows_other by discriminate.
    now rewrite app_nil_r.
  - destruct (String.eqb alert_type "FALL").
    + rewrite append_row_rows_same by (now apply append_row_is_Some).
      rewrite !append_row_rows_other by discriminate.
      now rewrite app_nil_r.
    + rewrite !append_row_rows_other by discriminate.
      now rewrite !app_nil_r.
Qed.

(** X12, witness: a GENERAL alert with the help flag set adds no row. *)
Lemma dispatch_event_rows_follow_alert_type_witness :
  let env :=
    {| call_stamp := "2025-01-01 10:00:00";
       event_stamp := "2025-01-01 10:00:01";
       call_outcome := Some "CA1"; call_time := 1%float |} in
  let sd :=
    {| sd_hr := 105; sd_spo2 := 94; sd_temp := 37%float;
       sd_fall := false; sd_help := true |} in
  let w0 := RafeeqAdvancedSystem.init None in
  VitalSignsMonitor.sheet_rows
    (excel_file (trigger_emergency_call "GENERAL" sd false env w0))
    "Help_Requests"
  = VitalSignsMonitor.sheet_rows (excel_file w0) "Help_Requests" ++ [].
Proof.
  intros env sd w0.
  apply (dispatch_event_rows_follow_alert_type "GENERAL" sd false env w0);
    vm_compute; eexists; reflexivity.
Defined.

(** X13: when the workbook file is missing, the dispatcher does not
    create it, and still places its call and counts it. *)
Theorem dispatch_without_workbook (alert_type : string) (sd : SensorData)
    (auto : bool) (env : DispatchEnv) (w : World) :
  excel_file w = None ->
  excel_file (trigger_emergency_call alert_type sd auto env w) = None
  /\ length (calls_created (trigger_emergency_call alert_type sd auto env w))
     = S (length (calls_created w))
  /\ call_counter (trigger_emergency_call alert_type sd auto env w)
     = call_counter w
       + match call_outcome env with Some _ => 1 | None => 0 end.
Proof.
  intros N. split; [|split].
  - rewrite dispatch_excel_file, N. cbv zeta.
    destruct (String.eqb alert_type "HELP");
      [|destruct (String.eqb alert_type "FALL")]; reflexivity.
  - destruct (dispatch_calls_created alert_type sd auto env w) as [r ->].
    rewrite length_app. cbn. lia.
  - rewrite dispatch_call_counter. destruct (call_outcome env); lia.
Qed.

(** X13, witness: a manual HEART alert with no file on disk. *)
Lemma dispatch_without_workbook_witness :
  let env :=
    {| call_stamp := "2025-01-01 10:00:00";
       event_stamp := "2025-01-01 10:00:01";
       call_outcome := Some "CA1"; call_time := 1%float |} in
  let sd :=
    {| sd_hr := 155; sd_spo2 := 96; sd_temp := 37%float;
       sd_fall := false; sd_help := false |} in
  let w :=
    {| LAST_AUTO_CALL := None; excel_file := None; call_counter := 3;
       status_label := SystemActive; calls_created := [];
       analyze_calls := [] |} in
  excel_file (trigger_emergency_call "HEART" sd false env w) = None
  /\ length (calls_created (trigger_emergency_call "HEART" sd false env w))
     = 1%nat
  /\ call_counter (trigger_emergency_call "HEART" sd false env w) = 3 + 1.
Proof.
  intros env sd w.
  apply (dispatch_without_workbook "HEART" sd false env w). reflexivity.
Defined.

(** ** Invariants of a run *)

Lemma sensor_iteration_process (d : Draws) (env : LoopEnv) (w : World) :
  sensor_iteration d env w
  = process_reading (generate_reading d).1.1.1 (generate_reading d).1.1.2
      (generate_reading d).1.2 (generate_reading d).2 env w.
Proof.
  unfold sensor_iteration.
  destruct (generate_reading d) as [[[hr spo2] temp] spike]. reflexivity.
Qed.

(** The events reach the workbook through the four append methods only. *)
Lemma handle_file_closed (P : option (gmap string DataFrame) -> Prop) :
  (forall st hr spo2 t e sc f,
     P f -> P (VitalSignsMonitor.append_vital_reading st hr spo2 t e sc f)) ->
  (forall st a hr spo2 t e auto f,
     P f ->
     P (VitalSignsMonitor.append_emergency_call st a hr spo2 t e auto f)) ->
  (forall st f, P f -> P (VitalSignsMonitor.append_fall_event st f)) ->
  (forall st f, P f -> P (VitalSignsMonitor.append_help_request st f)) ->
  forall (e : Event) (w : World),
    P (excel_file w) -> P (excel_file (handle e w)).
Proof.
  intros V E F H.
  assert (forall a sd auto env w,
            P (excel_file w) ->
            P (excel_file (trigger_emergency_call a sd auto env w))) as D.
  { intros a sd auto env w Pw. rewrite dispatch_excel_file. cbv zeta.
    destruct (String.eqb a "HELP"); [apply H, E, Pw|].
    destruct (String.eqb a "FALL"); [apply F, E, Pw|apply E, Pw]. }
  intros [d env|a hr spo2 temp fall help env|] w Pw; cbn [handle].
  - rewrite sensor_iteration_process, process_reading_cases.
    destruct (_ && _); [apply D|]; cbn [record_reading excel_file];
      apply V, Pw.
  - apply D, Pw.
  - exact Pw.
Qed.

Lemma run_file_closed (P : option (gmap string DataFrame) -> Prop) :
  (forall st hr spo2 t e sc f,
     P f -> P (VitalSignsMonitor.append_vital_reading st hr spo2 t e sc f)) ->
  (forall st a hr spo2 t e auto f,
     P f ->
     P (VitalSignsMonitor.append_emergency_call st a hr spo2 t e auto f)) ->
  (forall st f, P f -> P (VitalSignsMonitor.append_fall_event st f)) ->
  (forall st f, P f -> P (VitalSignsMonitor.append_help_request st f)) ->
  forall (es : list Event) (w : World),
    P (excel_file w) -> P (excel_file (run_events es w)).
Proof.
  intros V E F H es. induction es as [|e es IH]; intros w Pw; [exact Pw|].
  cbn. apply IH. now apply handle_file_closed.
Qed.

Lemma append_row_dom (sheet : string) (row : list (string * Cell))
    (file : option (gmap string DataFrame)) :
  dom <$> VitalSignsMonitor.append_row sheet row file = dom <$> file.
Proof.
  unfold VitalSignsMonitor.append_row.
  destruct file as [wb|]; cbn; [|reflexivity].
  destruct (wb !! sheet) as [df|] eqn:L; cbn; [|reflexivity].
  f_equal. apply dom_insert_lookup_L. eauto.
Qed.

(** X14: no sequence of events creates or deletes the workbook, nor adds
    or removes a sheet. *)
Theorem run_keeps_the_sheets (es : list Event) (w : World) :
  dom <$> excel_file (run_events es w) = dom <$> excel_file w.
Proof.
  apply (run_file_closed (fun f => dom <$> f = dom <$> excel_file w));
    try reflexivity; intros;
    unfold VitalSignsMonitor.append_vital_reading,
      VitalSignsMonitor.append_emergency_call,
      VitalSignsMonitor.append_fall_event,
      VitalSignsMonitor.append_help_request;
    now rewrite append_row_dom.
Qed.

Lemma run_keeps_sheet (sheet : string) (es : list Event) (w : World) :
  is_Some (pd.read_excel (excel_file w) sheet) ->
  is_Some (pd.read_excel (excel_file (run_events es w)) sheet).
Proof.
  apply (run_file_closed (fun f => is_Some (pd.read_excel f sheet)));
    intros;
    unfold VitalSignsMonitor.append_vital_reading,
      VitalSignsMonitor.append_emergency_call,
      VitalSignsMonitor.append_fall_event,
      VitalSignsMonitor.append_help_request;
    now apply append_row_is_Some.
Qed.

Lemma run_events_app (es1 es2 : list Event) (w : World) :
  run_events (es1 ++ es2) w = run_events es2 (run_events es1 w).
Proof. apply fold_left_app. Qed.

Lemma handle_vital_rows (e : Event) (w : World) :
  is_Some (pd.read_excel (excel_file w) "Vital_Signs") ->
  length (VitalSignsMonitor.sheet_rows (excel_file (handle e w))
            "Vital_Signs")
  = (length (VitalSignsMonitor.sheet_rows (excel_file w) "Vital_Signs")
     + ticks [e])%nat.
Proof.
  intros S. destruct e as [d env|a hr spo2 temp fall help env|];
    cbn [handle ticks List.filter length].
  - rewrite sensor_iteration_process, process_reading_cases.
    destruct (_ && _); rewrite ?dispatch_vital_rows;
      rewrite record_reading_vital_rows by exact S;
      now rewrite length_app.
  - unfold RafeeqAdvancedSystem.trigger_alert.
    rewrite dispatch_vital_rows. lia.
  - cbn. lia.
Qed.

(** X15: when the workbook has its Vital_Signs sheet, after any sequence
    of events the sheet has gained exactly one row per sensor iteration;
    clicks add none. *)
Theorem run_records_every_tick (es : list Event) (w : World) :
  is_Some (pd.read_excel (excel_file w) "Vital_Signs") ->
  length (VitalSignsMonitor.sheet_rows (excel_file (run_events es w))
            "Vital_Signs")
  = (length (VitalSignsMonitor.sheet_rows (excel_file w) "Vital_Signs")
     + ticks es)%nat.
Proof.
  revert w. induction es as [|e es IH]; intros w S; [cbn; lia|].
  cbn [run_events fold_left].
  change (fold_left (fun w e => handle e w) es (handle e w))
    with (run_events es (handle e w)).
  rewrite IH by (apply (run_keeps_sheet "Vital_Signs" [e] w S)).
  rewrite handle_vital_rows by exact S.
  unfold ticks. cbn [List.filter].
  destruct e; cbn [length]; lia.
Qed.

(** X15, witness: three iterations, two alerts and a reset. *)
Lemma run_records_every_tick_witness :
  let env t o :=
    {| reading_stamp := "2025-01-01 10:00:00"; current_time := t;
       dispatch_env :=
         {| call_stamp := "2025-01-01 10:00:00";
            event_stamp := "2025-01-01 10:00:00";
            call_outcome := o; call_time := t |} |} in
  let calm :=
    {| d_hr := 2; d_spo2 := 0; d_temp := 37%float; d_spike := 9;
       d_spike_type := "TEMP"; d_spike_hr := 150; d_spike_spo2 := 88;
       d_spike_temp := 39%float |} in
  let spike :=
    {| d_hr := 0; d_spo2 := 0; d_temp := 37%float; d_spike := 1;
       d_spike_type := "HEART"; d_spike_hr := 150; d_spike_spo2 := 88;
       d_spike_temp := 39%float |} in
  let es :=
    [ SensorTick calm (env 0%float None);
      SensorTick spike (env 3%float (Some "CA1"));
      ButtonAlert "HELP" 105 94 37%float false true
        (dispatch_env (env 4%float None));
      ButtonReset;
      ButtonAlert "FALL" 120 95 37%float true false
        (dispatch_env (env 5%float (Some "CA2")));
      SensorTick spike (env 6%float (Some "CA3")) ] in
  let w0 := RafeeqAdvancedSystem.init None in
  length (VitalSignsMonitor.sheet_rows (excel_file (run_events es w0))
            "Vital_Signs")
  = (length (VitalSignsMonitor.sheet_rows (excel_file w0) "Vital_Signs")
     + ticks es)%nat.
Proof.
  intros env calm spike es w0.
  apply (run_records_every_tick es w0). vm_compute. eexists. reflexivity.
Defined.





Lemma handle_counter_bounds (e : Event) (w : World) :
  0 <= call_counter w <= Z.of_nat (length (calls_created w)) ->
  0 <= call_counter (handle e w)
    <= Z.of_nat (length (calls_created (handle e w))).
Proof.
  intros B.
  assert (forall a sd auto env w,
            0 <= call_counter w <= Z.of_nat (length (calls_created w)) ->
            0 <= call_counter (trigger_emergency_call a sd auto env w)
              <= Z.of_nat (length (calls_created
                                     (trigger_emergency_call a sd auto env w))))
    as D.
  { intros a sd auto env w' B'. rewrite dispatch_call_counter.
    destruct (dispatch_calls_created a sd auto env w') as [r ->].
    rewrite length_app. cbn [length].
    destruct (call_outcome env); lia. }
  destruct e as [d env|a hr spo2 temp fall help env|]; cbn [handle].
  - rewrite sensor_iteration_process, process_reading_cases.
    destruct (_ && _); [apply D|]; exact B.
  - apply D, B.
  - cbn. lia.
Qed.

(** X18: a counter between 0 and the number of call attempts stays so
    after any sequence of events. *)
Theorem run_counter_within_attempts (es : list Event) (w : World) :
  0 <= call_counter w <= Z.of_nat (length (calls_created w)) ->
  0 <= call_counter (run_events es w)
    <= Z.of_nat (length (calls_created (run_events es w))).
Proof.
  revert w. induction es as [|e es IH]; intros w B; [exact B|].
  apply IH. now apply handle_counter_bounds.
Qed.

(** X18, witness: from start-up, a failed and a placed automatic call. *)
Lemma run_counter_within_attempts_witness :
  let env t o :=
    {| reading_stamp := "2025-01-01 10:00:00"; current_time := t;
       dispatch_env :=
         {| call_stamp := "2025-01-01 10:00:00";
            event_stamp := "2025-01-01 10:00:00";
            call_outcome := o; call_time := t |} |} in
  let spike :=
    {| d_hr := 0; d_spo2 := 0; d_temp := 37%float; d_spike := 1;
       d_spike_type := "HEART"; d_spike_hr := 150; d_spike_spo2 := 88;
       d_spike_temp := 39%float |} in
  let es :=
    [ SensorTick spike (env 0%float None);
      ButtonAlert "HELP" 105 94 37%float false true
        (dispatch_env (env 1%float (Some "CA1")));
      SensorTick spike (env 3%float (Some "CA2")) ] in
  0 <= call_counter (run_events es (RafeeqAdvancedSystem.init None))
    <= Z.of_nat (length (calls_created
                           (run_events es (RafeeqAdvancedSystem.init None)))).
Proof.
  intros env spike es.
  apply (run_counter_within_attempts es (RafeeqAdvancedSystem.init None)).
  cbn. lia.
Defined.

(** X19: once [LAST_AUTO_CALL] is set, no sequence of events unsets it. *)
Theorem run_never_clears_cooldown (es : list Event) (w : World) :
  is_Some (LAST_AUTO_CALL w) -> is_Some (LAST_AUTO_CALL (run_events es w)).
Proof.
  revert w. induction es as [|e es IH]; intros w S; [exact S|].
  apply IH. destruct e as [d env|a hr spo2 temp fall help env|]; cbn [handle].
  - rewrite sensor_iteration_process, process_reading_LAST_AUTO_CALL.
    destruct (_ && _); [|exact S].
    destruct (call_outcome _); [eauto|exact S].
  - unfold RafeeqAdvancedSystem.trigger_alert.
    rewrite dispatch_LAST_AUTO_CALL. destruct (call_outcome env); exact S.
  - exact S.
Qed.

(** X19, witness: a reset and a failed automatic call after a run. *)
Lemma run_never_clears_cooldown_witness :
  let env t o :=
    {| reading_stamp := "2025-01-01 10:00:00"; current_time := t;
       dispatch_env :=
         {| call_stamp := "2025-01-01 10:00:00";
            event_stamp := "2025-01-01 10:00:00";
            call_outcome := o; call_time := t |} |} in
  let calm :=
    {| d_hr := 2; d_spo2 := 0; d_temp := 37%float; d_spike := 9;
       d_spike_type := "TEMP"; d_spike_hr := 150; d_spike_spo2 := 88;
       d_spike_temp := 39%float |} in
  let spike :=
    {| d_hr := 0; d_spo2 := 0; d_temp := 37%float; d_spike := 1;
       d_spike_type := "HEART"; d_spike_hr := 150; d_spike_spo2 := 88;
       d_spike_temp := 39%float |} in
  let es :=
    [ SensorTick calm (env 0%float None);
      SensorTick spike (env 3%float (Some "CA1"));
      ButtonAlert "HELP" 105 94 37%float false true
        (dispatch_env (env 4%float None));
      ButtonReset;
      ButtonAlert "FALL" 120 95 37%float true false
        (dispatch_env (env 5%float (Some "CA2")));
      SensorTick spike (env 6%float (Some "CA3")) ] in
  let w0 := RafeeqAdvancedSystem.init None in
  is_Some (LAST_AUTO_CALL
             (run_events [ButtonReset; SensorTick spike (env 9%float None)]
                (run_events es w0))).
Proof.
  intros env calm spike es w0.
  apply (run_never_clears_cooldown
           [ButtonReset; SensorTick spike (env 9%float None)]
           (run_events es w0)).
  vm_compute. eexists. reflexivity.
Defined.






(** ** The order of binary64 numbers *)

(** Splits the comparisons of exponents and mantissas. *)
Ltac order_cases :=
  repeat match goal with
    | |- context [Z.compare ?a ?b] => destruct (Z.compare_spec a b)
    | |- context [Pos.compare ?a ?b] => destruct (Pos.compare_spec a b)
    end.

Lemma SF_lt_trans (x y z : spec_float) :
  SFltb x y = true -> SFltb y z = true -> SFltb x z = true.
Proof.
  unfold SFltb, SFcompare.
  destruct x as [sx|sx| |sx mx ex], y as [sy|sy| |sy my ey],
    z as [sz|sz| |sz mz ez];
    try discriminate;
    try (destruct sx); try (destruct sy); try (destruct sz);
    try discriminate; try reflexivity;
    change (Pos.compare_cont Eq) with Pos.compare;
    order_cases; cbn; try discriminate; try reflexivity; intros; lia.
Qed.

Lemma SF_le_not_lt (x y : spec_float) :
  SFleb x y = true -> SFltb y x = false.
Proof.
  unfold SFleb, SFltb, SFcompare.
  destruct x as [sx|sx| |sx mx ex], y as [sy|sy| |sy my ey];
    try discriminate; try reflexivity;
    try (destruct sx); try (destruct sy);
    try discriminate; try reflexivity;
    change (Pos.compare_cont Eq) with Pos.compare;
    order_cases; cbn; try discriminate; try reflexivity; intros; lia.
Qed.

Lemma SF_lt_le_trans (x y z : spec_float) :
  SFltb x y = true -> SFleb y z = true -> SFltb x z = true.
Proof.
  unfold SFltb, SFleb, SFcompare.
  destruct x as [sx|sx| |sx mx ex], y as [sy|sy| |sy my ey],
    z as [sz|sz| |sz mz ez];
    try discriminate;
    try (destruct sx); try (destruct sy); try (destruct sz);
    try discriminate; try reflexivity;
    change (Pos.compare_cont Eq) with Pos.compare;
    order_cases; cbn; try discriminate; try reflexivity; intros; lia.
Qed.

Lemma float_lt_trans (a b c : float) :
  PrimFloat.ltb a b = true -> PrimFloat.ltb b c = true ->
  PrimFloat.ltb a c = true.
Proof. rewrite !ltb_spec. apply SF_lt_trans. Qed.

Lemma float_le_not_lt (a b : float) :
  PrimFloat.leb a b = true -> PrimFloat.ltb b a = false.
Proof. rewrite ltb_spec, leb_spec. apply SF_le_not_lt. Qed.

Lemma float_lt_le_trans (a b c : float) :
  PrimFloat.ltb a b = true -> PrimFloat.leb b c = true ->
  PrimFloat.ltb a c = true.
Proof. rewrite !ltb_spec, leb_spec. apply SF_lt_le_trans. Qed.

(** ** The thresholds of the loop against the bands of the scorer *)

Lemma critical_temp_abnormal (temp : float) :
  fgt temp TEMP_CRITICAL_HIGH || flt temp TEMP_CRITICAL_LOW = true ->
  fgt temp 38%float || flt temp 36%float = true.
Proof.
  unfold fgt, flt, TEMP_CRITICAL_HIGH, TEMP_CRITICAL_LOW.
  intros C. apply orb_true_iff in C as [C|C]; apply orb_true_iff.
  - left. apply (float_lt_trans 38%float 38.5%float temp); [reflexivity|exact C].
  - right. apply (float_lt_trans temp 35.5%float 36%float); [exact C|reflexivity].
Qed.

Lemma normal_temp_not_abnormal (temp : float) :
  fge temp 36%float = true -> fge 38%float temp = true ->
  fgt temp 38%float || flt temp 36%float = false.
Proof.
  unfold fge, fgt, flt. intros L H.
  rewrite (float_le_not_lt temp 38%float H), (float_le_not_lt 36%float temp L).
  reflexivity.
Qed.


(** A heart rate of 115 is MILD DISCOMFORT with no vital to list. *)
Example stress_without_listed_vital :
  unstable_case_label 115 96 37%float
  = UnstableCase "MILD DISCOMFORT" None "#FBC02D".
Proof. reflexivity. Qed.

(** X7: a reading whose automatic alert type is TEMP carries the
    temp_abnormal factor and scores at least 15: the critical threshold
    38.5 lies inside the scorer's band above 38. *)
Theorem temp_alert_is_scored_abnormal (hr spo2 : Z) (temp : float) :
  auto_alert_type hr spo2 temp = "TEMP" ->
  In "temp_abnormal"
    (EmotionAnalyzer.factors
       (EmotionAnalyzer.analyze hr spo2 temp false false))
  /\ 15 <= EmotionAnalyzer.score
             (EmotionAnalyzer.analyze hr spo2 temp false false).
Proof.
  unfold auto_alert_type.
  destruct (hr >? HEART_RATE_CRITICAL); [discriminate|].
  destruct (spo2 <? SPO2_CRITICAL); [discriminate|].
  destruct (fgt temp TEMP_CRITICAL_HIGH) eqn:C; [|discriminate].
  intros _.
  assert (fgt temp 38%float || flt temp 36%float = true) as A
    by (apply critical_temp_abnormal; now rewrite C).
  unfold EmotionAnalyzer.analyze, EmotionAnalyzer.heart_rate_analysis,
    EmotionAnalyzer.spo2_analysis, EmotionAnalyzer.temperature_analysis,
    EmotionAnalyzer.critical_events.
  rewrite A, !Z.gtb_ltb.
  destruct (Z.ltb_spec 130 hr), (Z.ltb_spec 110 hr),
    (Z.ltb_spec spo2 92), (Z.ltb_spec spo2 95);
    vm_compute; (split; [tauto|intros E; discriminate E]).
Qed.

(** X7, witness: 39.25 degrees with normal heart rate and SpO2. *)
Lemma temp_alert_is_scored_abnormal_witness :
  In "temp_abnormal"
    (EmotionAnalyzer.factors
       (EmotionAnalyzer.analyze 98 96 39.25%float false false))
  /\ 15 <= EmotionAnalyzer.score
             (EmotionAnalyzer.analyze 98 96 39.25%float false false).
Proof.
  apply (temp_alert_is_scored_abnormal 98 96 39.25%float). reflexivity.
Defined.

(** ** The readings the simulator generates *)

(** X9: with the heart rate and SpO2 draws in their ranges, no spike and
    a temperature between 36 and 38, the reading is STABLE with score 0
    and the iteration only records it. *)
Theorem normal_draws_never_escalate (d : Draws) (env : LoopEnv) (w : World) :
  -5 <= d_hr d <= 5 -> -1 <= d_spo2 d <= 1 -> d_spike d <> 1 ->
  fge (d_temp d) 36%float = true -> fge 38%float (d_temp d) = true ->
  sensor_iteration d env w
  = record_reading (75 + d_hr d) (97 + d_spo2 d) (d_temp d) env w
  /\ EmotionAnalyzer.analyze (75 + d_hr d) (97 + d_spo2 d) (d_temp d)
       false false
     = {| EmotionAnalyzer.emotion := "STABLE"; EmotionAnalyzer.score := 0;
          EmotionAnalyzer.color := "#00C853";
          EmotionAnalyzer.factors := [] |}.
Proof.
  intros H S K L U.
  assert (EmotionAnalyzer.analyze (75 + d_hr d) (97 + d_spo2 d) (d_temp d)
            false false
          = {| EmotionAnalyzer.emotion := "STABLE";
               EmotionAnalyzer.score := 0;
               EmotionAnalyzer.color := "#00C853";
               EmotionAnalyzer.factors := [] |}) as A.
  { unfold EmotionAnalyzer.analyze, EmotionAnalyzer.heart_rate_analysis,
      EmotionAnalyzer.spo2_analysis, EmotionAnalyzer.temperature_analysis,
      EmotionAnalyzer.critical_events.
    rewrite (normal_temp_not_abnormal (d_temp d) L U), !Z.gtb_ltb.
    rewrite (proj2 (Z.ltb_ge 130 (75 + d_hr d))) by lia.
    rewrite (proj2 (Z.ltb_ge 110 (75 + d_hr d))) by lia.
    rewrite (proj2 (Z.ltb_ge (97 + d_spo2 d) 92)) by lia.
    rewrite (proj2 (Z.ltb_ge (97 + d_spo2 d) 95)) by lia.
    reflexivity. }
  split; [|exact A].
  unfold sensor_iteration, generate_reading.
  rewrite (proj2 (Z.eqb_neq (d_spike d) 1) K).
  rewrite process_reading_cases. unfold auto_trigger. rewrite A.
  reflexivity.
Qed.

(** X9, witness: the highest heart rate and lowest SpO2 of the ranges. *)
Lemma normal_draws_never_escalate_witness :
  let d :=
    {| d_hr := 5; d_spo2 := -1; d_temp := 36.5%float; d_spike := 7;
       d_spike_type := "HEART"; d_spike_hr := 150; d_spike_spo2 := 88;
       d_spike_temp := 39%float |} in
  let env :=
    {| reading_stamp := "2025-01-01 10:00:00"; current_time := 0%float;
       dispatch_env :=
         {| call_stamp := "2025-01-01 10:00:00";
            event_stamp := "2025-01-01 10:00:00";
            call_outcome := Some "CA1"; call_time := 0%float |} |} in
  let w0 := RafeeqAdvancedSystem.init None in
  sensor_iteration d env w0 = record_reading 80 96 36.5%float env w0.
Proof.
  intros d env w0.
  apply (normal_draws_never_escalate d env w0);
    cbn; first [lia | reflexivity].
Defined.

(** X10: an SpO2 spike keeps the normal heart rate and temperature of the
    iteration, and its alert type is SPO2 only when the drawn value is
    below 90; at 90 or more it is TEMP or GENERAL. *)
Theorem oxygen_spike_alert_type (d : Draws) :
  -5 <= d_hr d <= 5 -> d_spike d = 1 -> d_spike_type d = "SPO2" ->
  generate_reading d = (75 + d_hr d, d_spike_spo2 d, d_temp d, true)
  /\ auto_alert_type (75 + d_hr d) (d_spike_spo2 d) (d_temp d)
     = if d_spike_spo2 d <? 90 then "SPO2"
       else if fgt (d_temp d) 38.5%float then "TEMP" else "GENERAL".
Proof.
  intros H K T. split.
  - unfold generate_reading. rewrite K, T. reflexivity.
  - unfold auto_alert_type, HEART_RATE_CRITICAL, SPO2_CRITICAL,
      TEMP_CRITICAL_HIGH.
    rewrite Z.gtb_ltb, (proj2 (Z.ltb_ge 140 (75 + d_hr d))) by lia.
    reflexivity.
Qed.

(** X10, witness: the spike value 91 gives GENERAL. *)
Lemma oxygen_spike_alert_type_witness :
  let d :=
    {| d_hr := 0; d_spo2 := 0; d_temp := 37%float; d_spike := 1;
       d_spike_type := "SPO2"; d_spike_hr := 150; d_spike_spo2 := 91;
       d_spike_temp := 39%float |} in
  generate_reading d = (75, 91, 37%float, true)
  /\ auto_alert_type 75 91 37%float = "GENERAL".
Proof.
  intros d.
  apply (oxygen_spike_alert_type d); cbn; first [lia | reflexivity].
Defined.

(** ** The headers of the workbook *)

Lemma append_row_header (sheet other : string)
    (row : list (string * Cell)) (cols : list string)
    (file : option (gmap string DataFrame)) :
  (sheet = other ->
   List.filter (fun c => negb (existsb (String.eqb c) cols))
     (List.map fst row) = []) ->
  sheet_header file other = Some cols ->
  sheet_header (VitalSignsMonitor.append_row sheet row file) other
  = Some cols.
Proof.
  unfold sheet_header. intros K R.
  destruct (decide (sheet = other)) as [->|N].
  - destruct (pd.read_excel file other) as [df|] eqn:E; [|discriminate R].
    rewrite (append_row_same _ _ _ _ E). cbn in *.
    injection R as <-. now rewrite K, app_nil_r.
  - now rewrite append_row_other.
Qed.

(** X20: a workbook with the four header rows of [init_excel_file] keeps
    them over any sequence of events: no append adds or renames a
    column. *)
Theorem run_keeps_the_headers (es : list Event) (w : World) :
  has_schema (excel_file w) -> has_schema (excel_file (run_events es w)).
Proof.
  apply (run_file_closed has_schema);
    unfold has_schema,
      VitalSignsMonitor.append_vital_reading,
      VitalSignsMonitor.append_emergency_call,
      VitalSignsMonitor.append_fall_event,
      VitalSignsMonitor.append_help_request;
    intros;
    repeat match goal with
      | K : _ /\ _ |- _ => destruct K
      end;
    repeat match goal with
      | |- context [sheet_header (Some VitalSignsMonitor.new_workbook) ?s] =>
          let h := fresh "h" in
          set (h := sheet_header (Some VitalSignsMonitor.new_workbook) s)
            in *;
          vm_compute in h; subst h
      end;
    repeat split;
    (apply append_row_header; [|assumption]);
    intros E; first [discriminate E | reflexivity].
Qed.

(** X20, witness: an automatic call and a FALL alert from start-up. *)
Lemma run_keeps_the_headers_witness :
  let env t o :=
    {| reading_stamp := "2025-01-01 10:00:00"; current_time := t;
       dispatch_env :=
         {| call_stamp := "2025-01-01 10:00:00";
            event_stamp := "2025-01-01 10:00:00";
            call_outcome := o; call_time := t |} |} in
  let spike :=
    {| d_hr := 0; d_spo2 := 0; d_temp := 37%float; d_spike := 1;
       d_spike_type := "HEART"; d_spike_hr := 150; d_spike_spo2 := 88;
       d_spike_temp := 39%float |} in
  let es :=
    [ SensorTick spike (env 0%float None);
      ButtonAlert "FALL" 120 95 37%float true false
        (dispatch_env (env 1%float (Some "CA1"))) ] in
  has_schema (excel_file (run_events es (RafeeqAdvancedSystem.init None))).
Proof.
  intros env spike es.
  apply (run_keeps_the_headers es (RafeeqAdvancedSystem.init None)).
  repeat split.
Defined.

(** X21: two appends to different sheets give the same workbook in either
    order. *)
Theorem appends_to_two_sheets_commute (sheet1 sheet2 : string)
    (row1 row2 : list (string * Cell))
    (file : option (gmap string DataFrame)) :
  sheet1 <> sheet2 ->
  VitalSignsMonitor.append_row sheet1 row1
    (VitalSignsMonitor.append_row sheet2 row2 file)
  = VitalSignsMonitor.append_row sheet2 row2
      (VitalSignsMonitor.append_row sheet1 row1 file).
Proof.
  intros N. unfold VitalSignsMonitor.append_row.
  destruct file as [wb|]; [|reflexivity]. cbn.
  destruct (wb !! sheet1) as [df1|] eqn:L1, (wb !! sheet2) as [df2|] eqn:L2;
    cbn; rewrite ?lookup_insert_ne by congruence; rewrite ?L1, ?L2; cbn;
    try reflexivity.
  f_equal. apply insert_insert_ne. congruence.
Qed.

(** X21, witness: a vital row and an emergency row on the new workbook. *)
Lemma appends_to_two_sheets_commute_witness :
  VitalSignsMonitor.append_row "Vital_Signs"
    (VitalSignsMonitor.vital_row "2025-01-01 10:00:00" 150 97 37%float
       "MODERATE STRESS" 30)
    (VitalSignsMonitor.append_row "Emergency_Calls"
       (VitalSignsMonitor.emergency_row "2025-01-01 10:00:00" "HEART" 150 97
          37%float "MODERATE STRESS" true)
       (Some VitalSignsMonitor.new_workbook))
  = VitalSignsMonitor.append_row "Emergency_Calls"
      (VitalSignsMonitor.emergency_row "2025-01-01 10:00:00" "HEART" 150 97
         37%float "MODERATE STRESS" true)
      (VitalSignsMonitor.append_row "Vital_Signs"
         (VitalSignsMonitor.vital_row "2025-01-01 10:00:00" 150 97 37%float
            "MODERATE STRESS" 30)
         (Some VitalSignsMonitor.new_workbook)).
Proof.
  apply appends_to_two_sheets_commute. discriminate.
Defined.
